(** * Parameter sets and tolerant value equality

    A shallow embedding of [model/util/values.py] and
    [model/util/parameter_set.py], and the properties of the parameter-set
    specification proved (or refuted) on it.

    Conventions of the embedding:
    - Python numbers are [SInt] (arbitrary precision integers), [SBool]
      (a subclass of [int] in Python) and [SFloat]; a float is not-a-number,
      an infinity, or a finite value kept as an exact rational (rounding is
      not modelled).
    - A [pandas.DataFrame] is a [DataFrame] record: its index and its
      columns, column-major, each column carrying its label.
    - A raised exception is the left injection of [result]; methods that
      mutate [self] are state transformers returning the outcome together
      with the object as it is when they return or raise. *)

From Stdlib Require Import QArith Qabs Qminmax Qround Lqa.
From stdpp Require Import gmap strings list fin_maps.

Close Scope Q_scope.
Open Scope Z_scope.
Open Scope string_scope.
Open Scope list_scope.

(** ** Exceptions *)

(** The four places of [parameter_set.py] that raise [AttributeError], by
    their message, and the one Python itself raises for a missing
    attribute. *)
Inductive attribute_error : Type :=
| Cannot_set_locked
    (* "Cannot set parameter of locked Parameter Set" *)
| Cannot_alter_locked (parameter_name : string)
    (* "Cannot alter value of locked Parameter Set (set_meta {parameter_name})" *)
| No_such_parameter (key : string)
    (* "No such parameter '{key}'" *)
| No_attribute (name : string).
    (* "... object has no attribute '{name}'" *)

Inductive exn : Type :=
| AttributeError (why : attribute_error)
| KeyError (key : string)
| ValueError
| TypeError
| StatisticsError.

Definition result (A : Type) : Type := (exn + A)%type.

Definition ret {A : Type} (a : A) : result A := inr a.
Definition raise {A : Type} (e : exn) : result A := inl e.

Definition bind {A B : Type} (m : result A) (k : A -> result B) : result B :=
  match m with
  | inl e => inl e
  | inr a => k a
  end.

Notation "x <- e ;; k" := (bind e (fun x => k))
  (at level 100, e at next level, right associativity).

(** The error kinds of the specification, read off the message. *)
Definition is_LockedError (e : exn) : bool :=
  match e with
  | AttributeError Cannot_set_locked => true
  | AttributeError (Cannot_alter_locked _) => true
  | _ => false
  end.

Definition is_UnknownParameterError (e : exn) : bool :=
  match e with
  | AttributeError (No_such_parameter _) => true
  | _ => false
  end.

(** ** Python values *)

Inductive pyfloat : Type :=
| nan
| inf (negative : bool)
| fin (q : Q).

Inductive scalar : Type :=
| SNone
| SBool (b : bool)
| SInt (z : Z)
| SFloat (x : pyfloat)
| SStr (s : string).

(** A dictionary key or a frame label: a string or an integer (a year). *)
Inductive label : Type :=
| LStr (s : string)
| LInt (z : Z).

Global Instance label_eq_dec : EqDecision label.
Proof. solve_decision. Defined.

(** Plain structured data, as [yaml.safe_load] returns it and
    [yaml.safe_dump] accepts it: scalars and insertion-ordered mappings. *)
#[warnings="-register-all"]
Inductive yaml : Type :=
| YScalar (s : scalar)
| YDict (d : list (label * yaml)).

Record DataFrame : Type := mkDataFrame {
  df_index : list label;
  df_data : list (label * list scalar)
}.

(** What an attribute of a parameter set may hold. *)
Inductive value : Type :=
| VScalar (s : scalar)
| VDict (d : list (label * yaml))
| VFrame (df : DataFrame).

(** [d[key]] and [key in d] on an insertion-ordered mapping. *)
Fixpoint dict_get {A : Type} (d : list (label * A)) (key : label) : option A :=
  match d with
  | [] => None
  | (k, a) :: rest => if decide (k = key) then Some a else dict_get rest key
  end.

Definition dict_contains {A : Type} (d : list (label * A)) (key : label) : bool :=
  match dict_get d key with
  | Some _ => true
  | None => false
  end.

(** ** Numbers *)

Definition as_number (x : scalar) : option pyfloat :=
  match x with
  | SBool b => Some (fin (if b then 1%Q else 0%Q))
  | SInt z => Some (fin (inject_Z z))
  | SFloat f => Some f
  | SNone | SStr _ => None
  end.

Definition isnan (f : pyfloat) : bool :=
  match f with
  | nan => true
  | _ => false
  end.

Definition isinf (f : pyfloat) : bool :=
  match f with
  | inf _ => true
  | _ => false
  end.

(** [==] on floats: not-a-number equals nothing, itself included. *)
Definition float_eqb (x y : pyfloat) : bool :=
  match x, y with
  | fin p, fin q => Qeq_bool p q
  | inf s, inf t => Bool.eqb s t
  | _, _ => false
  end.

(** [<] on floats. *)
Definition float_ltb (x y : pyfloat) : bool :=
  match x, y with
  | nan, _ | _, nan => false
  | fin p, fin q => negb (Qle_bool q p)
  | inf s, inf t => s && negb t
  | inf s, fin _ => s
  | fin _, inf t => negb t
  end.

Definition Qsign_neg (q : Q) : bool := negb (Qle_bool 0%Q q).
Definition Qis_zero (q : Q) : bool := Qeq_bool q 0%Q.

Definition float_neg (x : pyfloat) : pyfloat :=
  match x with
  | nan => nan
  | inf s => inf (negb s)
  | fin q => fin (Qopp q)
  end.

Definition float_add (x y : pyfloat) : pyfloat :=
  match x, y with
  | nan, _ | _, nan => nan
  | fin p, fin q => fin (Qplus p q)
  | inf s, inf t => if Bool.eqb s t then inf s else nan
  | inf s, fin _ => inf s
  | fin _, inf t => inf t
  end.

Definition float_sub (x y : pyfloat) : pyfloat := float_add x (float_neg y).

Definition float_mul (x y : pyfloat) : pyfloat :=
  match x, y with
  | nan, _ | _, nan => nan
  | fin p, fin q => fin (Qmult p q)
  | inf s, inf t => inf (xorb s t)
  | inf s, fin q | fin q, inf s =>
      if Qis_zero q then nan else inf (xorb s (Qsign_neg q))
  end.

(** Python's [==] between two scalars. *)
Definition py_eq (a b : scalar) : bool :=
  match as_number a, as_number b with
  | Some x, Some y => float_eqb x y
  | None, None =>
      match a, b with
      | SNone, SNone => true
      | SStr s, SStr t => bool_decide (s = t)
      | _, _ => false
      end
  | _, _ => false
  end.

Definition is_None (x : scalar) : bool :=
  match x with
  | SNone => true
  | _ => false
  end.

Definition is_str (x : scalar) : bool :=
  match x with
  | SStr _ => true
  | _ => false
  end.


(** ** [values.py] *)

Definition pseudo_nan (x : scalar) : bool :=
  is_None x || py_eq x (SStr "")
  || match x with
     | SFloat f => isnan f
     | _ => false
     end.

Definition pseudo_zero (x : scalar) : bool :=
  py_eq x (SInt 0) || pseudo_nan x.

(** Modelled on pytest's documentation of [approx] for a scalar expected
    value: [actual == pytest.approx(expected, abs, rel, nan_ok)], for
    tolerances that are not negative and integers within the range of the
    floats (on the others [approx] raises).  Equal
    operands compare equal; operands that are not both numbers fall back to
    that strict equality; not-a-number is matched by not-a-number only (and
    only if [nan_ok]); an infinite expected value by itself only; otherwise
    the distance must not exceed the larger of the absolute tolerance and the
    relative one scaled by the expected value. *)
Definition approx_eq (actual expected : scalar) (abs_tol rel_tol : Q) (nan_ok : bool) : bool :=
  if py_eq actual expected then true
  else
    match as_number expected, as_number actual with
    | Some e, Some a =>
        match e with
        | nan => nan_ok && isnan a
        | inf _ => false
        | fin qe =>
            match a with
            | fin qa =>
                Qle_bool (Qabs (Qminus qe qa)) (Qmax (Qmult rel_tol (Qabs qe)) abs_tol)
            | _ => false
            end
        end
    | _, _ => false
    end.

Definition default_thresh : Q := (1 # 1000000)%Q.

(** The part of [value_eq] after the frames are taken care of ("Now back to
    simple types"), on scalar operands. *)
Definition value_eq_simple (v1 v2 : scalar) (all_zero : bool) (thresh : Q) : bool :=
  if is_str v1 && is_str v2 then py_eq v1 v2
  else
    let v1 := if all_zero && pseudo_zero v1 then SFloat (fin 0%Q) else v1 in
    let v2 := if all_zero && pseudo_zero v2 then SFloat (fin 0%Q) else v2 in
    (is_None v1 && is_None v2) || approx_eq v1 v2 thresh (1 # 1000000)%Q true.

(** [df.columns], [df[col]] (the column of that label), [Index.equals]. *)
Definition df_columns (df : DataFrame) : list label := (df_data df).*1.

Definition df_getitem (df : DataFrame) (col : label) : list scalar :=
  default [] (dict_get (df_data df) col).

Definition index_equals (i1 i2 : list label) : bool := bool_decide (i1 = i2).

(** The cells of a frame are scalars, so the call of [value_eq] in the loop
    always lands in its simple-types part. *)
Definition df_value_eq (v1 v2 : DataFrame) (all_zero : bool) (thresh : Q) : bool :=
  if negb (index_equals (df_index v1) (df_index v2)) then false
  else if negb (index_equals (df_columns v1) (df_columns v2)) then false
  else
    forallb
      (fun col =>
         forallb (fun x => value_eq_simple x.1 x.2 all_zero thresh)
                 (zip (df_getitem v1 col) (df_getitem v2 col)))
      (df_columns v1).

(** A bare mapping is no value of the parameter format; the comparison of
    [pytest.approx] on mappings is not modelled and every theorem that
    compares values takes scalars or frames. *)
Definition value_eq (v1 v2 : value) (all_zero : bool) (thresh : Q) : bool :=
  match v1, v2 with
  | VFrame d1, VFrame d2 => df_value_eq d1 d2 all_zero thresh
  | VFrame _, _ => false
  | _, VFrame _ => false
  | VScalar x1, VScalar x2 => value_eq_simple x1 x2 all_zero thresh
  | _, _ => false
  end.

(** *** Summary statistics

    [statistics.mean], [statistics.stdev] and [statistics.quantiles] belong
    to Python's library.  What they compute on enough data is left open
    (the three variables); that they raise [StatisticsError] on too little
    data is their documented behaviour. *)

Section Statistics.

Variable mean_value : list scalar -> result pyfloat.
Variable stdev_value : list scalar -> result pyfloat.
Variable quartiles : list scalar -> result (pyfloat * pyfloat * pyfloat).

Definition statistics_mean (data : list scalar) : result pyfloat :=
  match data with
  | [] => raise StatisticsError
  | _ => mean_value data
  end.

Definition statistics_stdev (data : list scalar) : result pyfloat :=
  if (length data <? 2)%nat then raise StatisticsError else stdev_value data.

Definition statistics_quantiles (data : list scalar) : result (pyfloat * pyfloat * pyfloat) :=
  if (length data <? 2)%nat then raise StatisticsError else quartiles data.

Definition filter_nans (vs : list scalar) : list scalar :=
  List.filter (fun x => negb (pseudo_nan x)) vs.

Definition s25_ile (vs : list scalar) : result scalar :=
  let vs := filter_nans vs in
  if (2 <? length vs)%nat then
    quiles <- statistics_quantiles vs ;;
    ret (SFloat quiles.1.1)
  else ret (SFloat nan).

Definition s75_ile (vs : list scalar) : result scalar :=
  let vs := filter_nans vs in
  if (2 <? length vs)%nat then
    quiles <- statistics_quantiles vs ;;
    ret (SFloat quiles.2)
  else ret (SFloat nan).

Definition slow_dev (vs : list scalar) (n : Z) (minzero : bool) : result scalar :=
  let vs := filter_nans vs in
  if (0 <? length vs)%nat then
    m <- statistics_mean vs ;;
    s <- statistics_stdev vs ;;
    let r := float_sub m (float_mul (fin (inject_Z n)) s) in
    ret (if minzero && float_ltb r (fin 0%Q) then SInt 0 else SFloat r)
  else ret (SFloat nan).

Definition shi_dev (vs : list scalar) (n : Z) : result scalar :=
  let vs := filter_nans vs in
  m <- statistics_mean vs ;;
  t <- (if (0 <? length vs)%nat then
          s <- statistics_stdev vs ;;
          ret (float_mul (fin (inject_Z n)) s)
        else ret nan) ;;
  ret (SFloat (float_add m t)).

End Statistics.

(** ** Frames and plain data *)

(** [d[key] = a]: replace the entry of an existing key, else append. *)
Fixpoint dict_setitem {K A : Type} `{EqDecision K}
    (d : list (K * A)) (key : K) (a : A) : list (K * A) :=
  match d with
  | [] => [(key, a)]
  | (k, b) :: rest =>
      if decide (k = key) then (k, a) :: rest else (k, b) :: dict_setitem rest key a
  end.

Definition dict_of_items {K A : Type} `{EqDecision K} (items : list (K * A)) : list (K * A) :=
  foldl (fun d kv => dict_setitem d kv.1 kv.2) [] items.

(** [df.to_dict()]: [{column: {row: cell}}]. *)
Definition to_dict (df : DataFrame) : list (label * yaml) :=
  dict_of_items
    (List.map
       (fun c => (c.1, YDict (dict_of_items
                                (zip (df_index df) (List.map YScalar c.2)))))
       (df_data df)).

Definition as_cells (col : yaml) : option (list (label * scalar)) :=
  match col with
  | YDict cells =>
      mapM (fun kc => match kc.2 with
                      | YScalar s => Some (kc.1, s)
                      | YDict _ => None
                      end) cells
  | YScalar _ => None
  end.

Definition union_index (idx keys : list label) : list label :=
  foldl (fun acc k => if bool_decide (k ∈ acc) then acc else acc ++ [k]) idx keys.

(** Modelled from the spec: a table is reconstructed from a nested mapping
    [{column_label: {row_key: cell_value}}] and reconstruction fails when
    the data does not have this shape ([pandas.DataFrame.from_dict] is not
    part of the sources).  The rows are the row keys of the columns in order
    of first appearance; a cell a column lacks is not-a-number.  The cells
    are kept as they are given, which is what [pandas] does for a column of
    one kind; the statements about rebuilt tables take such columns. *)
Definition from_dict (raw_value : yaml) : result DataFrame :=
  match raw_value with
  | YScalar _ => raise ValueError
  | YDict cols =>
      match mapM (fun c => cells ← as_cells c.2; Some (c.1, cells)) cols with
      | None => raise ValueError
      | Some cols =>
          let index := foldl (fun acc c => union_index acc (c.2).*1) [] cols in
          ret (mkDataFrame index
                 (List.map
                    (fun c => (c.1, List.map
                                      (fun i => default (SFloat nan) (dict_get c.2 i))
                                      index))
                    cols))
      end
  end.

Definition value_of_yaml (y : yaml) : value :=
  match y with
  | YScalar s => VScalar s
  | YDict d => VDict d
  end.

(** ** [parameter_set.py] *)

(** A dataclass field of a parameter-set class: its name, its default (the
    class attribute of that name) and whether its metadata carries a
    ['pdtype']. *)
Record field : Type := mkField {
  fld_name : string;
  fld_default : value;
  fld_pdtype : bool
}.

(** A class decorated with [ps_dataclass]: its name, its
    [dataclasses.fields] in the order of declaration, and the other entries
    of its [__dataclass_fields__], the [InitVar] and [ClassVar]
    pseudo-fields, whose default is the class attribute of that name. *)
Record class : Type := mkClass {
  __name__ : string;
  fields : list field;
  pseudo_fields : list field
}.

Definition __dataclass_fields__ (cls : class) : list field :=
  fields cls ++ pseudo_fields cls.

(** An instance.  The bookkeeping attributes [_meta], [_set] and [_locked]
    are fields of the record; every other instance attribute is an entry of
    [__dict__].  [_locked] holds whatever was assigned to it (the class
    attribute [False] until then). *)
Record ParameterSet : Type := mkParameterSet {
  __class__ : class;
  __dict__ : gmap string value;
  _meta : gmap string yaml;
  _set : gset string;
  _locked : value
}.

Definition with_dict (f : gmap string value -> gmap string value) (self : ParameterSet) :=
  mkParameterSet (__class__ self) (f (__dict__ self)) (_meta self) (_set self) (_locked self).
Definition with_meta (f : gmap string yaml -> gmap string yaml) (self : ParameterSet) :=
  mkParameterSet (__class__ self) (__dict__ self) (f (_meta self)) (_set self) (_locked self).
Definition with_set (f : gset string -> gset string) (self : ParameterSet) :=
  mkParameterSet (__class__ self) (__dict__ self) (_meta self) (f (_set self)) (_locked self).
Definition with_locked (v : value) (self : ParameterSet) :=
  mkParameterSet (__class__ self) (__dict__ self) (_meta self) (_set self) v.

(** A method that may mutate [self]: the outcome and the object as the call
    leaves it. *)
Definition method (A : Type) : Type := ParameterSet -> result A * ParameterSet.

Definition mret {A : Type} (a : A) : method A := fun self => (ret a, self).
Definition mraise {A : Type} (e : exn) : method A := fun self => (raise e, self).
Definition lift {A : Type} (r : result A) : method A := fun self => (r, self).
Definition read {A : Type} (f : ParameterSet -> result A) : method A :=
  fun self => (f self, self).
Definition modify (f : ParameterSet -> ParameterSet) : method unit :=
  fun self => (ret tt, f self).

Definition mbind {A B : Type} (m : method A) (k : A -> method B) : method B :=
  fun self =>
    match m self with
    | (inl e, self') => (inl e, self')
    | (inr a, self') => k a self'
    end.

Notation "x <~ e ;; k" := (mbind e (fun x => k))
  (at level 100, e at next level, right associativity).

(** [for x in l: body(x)]. *)
Fixpoint for_each {A : Type} (l : list A) (body : A -> method unit) : method unit :=
  match l with
  | [] => mret tt
  | x :: rest => _ <~ body x ;; for_each rest body
  end.

(** The object a method leaves behind, when it returns. *)
Definition returned (r : result unit * ParameterSet) : result ParameterSet :=
  match r with
  | (inl e, _) => inl e
  | (inr _, self) => inr self
  end.

(** Truth value of an object, as [if] takes it; a frame has none. *)
Definition truthy (v : value) : result bool :=
  match v with
  | VScalar SNone => ret false
  | VScalar (SBool b) => ret b
  | VScalar (SInt z) => ret (negb (Z.eqb z 0))
  | VScalar (SFloat f) => ret (negb (float_eqb f (fin 0%Q)))
  | VScalar (SStr s) => ret (negb (bool_decide (s = "")))
  | VDict d => ret (negb (bool_decide (d = [])))
  | VFrame _ => raise ValueError
  end.

Definition parameter_names (cls : class) : list string :=
  List.map fld_name (fields cls).

(** [cls.__dataclass_fields__], indexed by field name. *)
Definition _field_data (cls : class) (k : string) : option field :=
  List.find (fun f => bool_decide (fld_name f = k)) (__dataclass_fields__ cls).

Definition islocked (self : ParameterSet) : value := _locked self.

(** The names [ParameterSet] keeps its own state and methods under, with
    the three every object has.  An instance attribute of such a name would
    replace what the methods themselves look up on [self], or cannot be
    assigned as a plain attribute; the embedding covers the other names, and
    [_locked]. *)
Definition reserved : list string :=
  [ "__class__"; "__dict__"; "__weakref__"; "__dataclass_fields__"; "_meta"; "_set";
    "__init__"; "_initialize_value"; "_to_yaml_form"; "to_yaml";
    "parameter_names"; "_field_data"; "merged_with"; "delta_from"; "copy";
    "lock"; "islocked"; "__setattr__"; "__getitem__"; "__setitem__";
    "__str__"; "meta"; "all_meta"; "set_meta" ].

(** [object.__setattr__(self, name, value)], for [_locked] and the names
    that are not reserved: [_locked] has its slot, any other attribute is an
    entry of [__dict__]. *)
Definition object_setattr (name : string) (v : value) (self : ParameterSet) : ParameterSet :=
  if bool_decide (name = "_locked") then with_locked v self
  else with_dict (insert name v) self.

(** [getattr(self, key)], for [_locked] and the names that are not
    reserved: the instance attribute, else the class attribute, which for a
    field or a pseudo-field is its default. *)
Definition getattr (self : ParameterSet) (key : string) : result value :=
  if bool_decide (key = "_locked") then ret (_locked self)
  else
    match __dict__ self !! key with
    | Some v => ret v
    | None =>
        match _field_data (__class__ self) key with
        | Some f => ret (fld_default f)
        | None => raise (AttributeError (No_attribute key))
        end
    end.

Definition __setattr__ (name : string) (v : value) : method unit :=
  locked <~ read (fun self => truthy (islocked self)) ;;
  if locked : bool then mraise (AttributeError Cannot_set_locked)
  else
    _ <~ modify (object_setattr name v) ;;
    cls <~ read (fun self => ret (__class__ self)) ;;
    if bool_decide (name ∈ parameter_names cls)
    then modify (with_set (fun s => s ∪ {[name]}))
    else mret tt.

Definition __getitem__ (self : ParameterSet) (key : string) : result value :=
  if negb (bool_decide (key ∈ parameter_names (__class__ self)))
  then raise (AttributeError (No_such_parameter key))
  else getattr self key.

Definition __setitem__ (key : string) (v : value) : method unit :=
  cls <~ read (fun self => ret (__class__ self)) ;;
  if negb (bool_decide (key ∈ parameter_names cls))
  then mraise (AttributeError (No_such_parameter key))
  else __setattr__ key v.

Definition meta (self : ParameterSet) (parameter_name : string) : result yaml :=
  if negb (bool_decide (parameter_name ∈ parameter_names (__class__ self)))
  then raise (AttributeError (No_such_parameter parameter_name))
  else ret (default (YScalar SNone) (_meta self !! parameter_name)).

Definition set_meta (parameter_name : string) (newvalue : yaml) : method unit :=
  locked <~ read (fun self => truthy (islocked self)) ;;
  if locked : bool then mraise (AttributeError (Cannot_alter_locked parameter_name))
  else
    cls <~ read (fun self => ret (__class__ self)) ;;
    if negb (bool_decide (parameter_name ∈ parameter_names cls))
    then mraise (AttributeError (No_such_parameter parameter_name))
    else
      _ <~ modify (with_meta (insert parameter_name newvalue)) ;;
      modify (with_set (fun s => s ∪ {[parameter_name]})).

Definition lock : method unit := __setattr__ "_locked" (VScalar (SBool true)).

Definition _initialize_value (param_name : string) (raw_value : yaml) (pdtype : bool)
    : result value :=
  if pdtype && negb (match raw_value with YScalar SNone => true | _ => false end)
  then df <- from_dict raw_value ;; ret (VFrame df)
  else ret (value_of_yaml raw_value).

(** The object [__init__] starts from once [self._meta = {}] and
    [self._set = set()] are done: nothing in its [__dict__], the class
    attribute [_locked = False]. *)
Definition new_object (cls : class) : ParameterSet :=
  mkParameterSet cls ∅ ∅ ∅ (VScalar (SBool false)).

(** The body of the loop of [__init__] over [param_data.items()].  The
    warning for an unknown key leaves no trace in the object. *)
Definition init_item (cls : class) (kv : string * yaml) : method unit :=
  let k := kv.1 in
  let v := kv.2 in
  match _field_data cls k with
  | Some fld =>
      v <~ match v with
           | YDict d =>
               match dict_get d (LStr "meta"), dict_get d (LStr "value") with
               | Some m, Some v' =>
                   _ <~ modify (with_meta (insert k m)) ;; mret v'
               | _, _ => mret v
               end
           | YScalar _ => mret v
           end ;;
      v <~ lift (_initialize_value k v (fld_pdtype fld)) ;;
      _ <~ __setitem__ k v ;;
      modify (with_set (fun s => s ∪ {[k]}))
  | None => mret tt
  end.

(** [ParameterSet.__init__] on a new instance of [cls], for [param_data] a
    mapping already parsed (an empty one for [None]): what [cls(param_data)]
    does for a class that does not define an [__init__] of its own. *)
Definition __init__ (cls : class) (param_data : list (string * yaml)) : result ParameterSet :=
  returned (for_each param_data (init_item cls) (new_object cls)).

Definition yaml_of_value (v : value) : yaml :=
  match v with
  | VFrame df => YDict (to_dict df)
  | VScalar s => YScalar s
  | VDict d => YDict d
  end.

Definition yaml_is_None (y : yaml) : bool :=
  match y with
  | YScalar SNone => true
  | _ => false
  end.

(** The body of the loop of [_to_yaml_form], on the mapping built so far. *)
Definition yaml_form_item (self : ParameterSet) (compact : bool)
    (the_data : list (string * yaml)) (p : string) : result (list (string * yaml)) :=
  v <- __getitem__ self p ;;
  if compact && negb (bool_decide (p ∈ _set self)) then ret the_data
  else
    let v := yaml_of_value v in
    m <- meta self p ;;
    let v := if negb (yaml_is_None m)
             then YDict [(LStr "value", v); (LStr "meta", m)]
             else v in
    ret (dict_setitem the_data p v).

Fixpoint yaml_form_loop (self : ParameterSet) (compact : bool)
    (ps : list string) (the_data : list (string * yaml)) : result (list (string * yaml)) :=
  match ps with
  | [] => ret the_data
  | p :: rest =>
      the_data <- yaml_form_item self compact the_data p ;;
      yaml_form_loop self compact rest the_data
  end.

Definition _to_yaml_form (self : ParameterSet) (compact : bool) : result (list (string * yaml)) :=
  yaml_form_loop self compact (parameter_names (__class__ self)) [].

(** *** Calling a class

    [cls(param_data)] runs the [__init__] the class has: the one above, or
    the one the class or a base of it defines ("it is allowed for the
    concrete ParameterSet classes to augment the functionality here, e.g.
    to do more value checking or more complex initialization").  The
    constructors of the classes of a program are a function of the class;
    [copy], [merged_with] and [delta_from] go through it. *)
Definition constructors : Type :=
  class -> list (string * yaml) -> result ParameterSet.

(** A class that runs [ParameterSet.__init__]. *)
Definition inherits_init (construct : constructors) (cls : class) : Prop :=
  forall param_data, construct cls param_data = __init__ cls param_data.

Section Classes.

Variable construct : constructors.

(** [copy] and [merged_with] call [_to_yaml_form()] with its default,
    [compact=True]. *)
Definition copy (self : ParameterSet) : result ParameterSet :=
  the_data <- _to_yaml_form self true ;;
  construct (__class__ self) the_data.

Definition merged_with (self other_ps : ParameterSet) : result ParameterSet :=
  the_data <- _to_yaml_form self true ;;
  newps <- construct (__class__ other_ps) the_data ;;
  let pnames := parameter_names (__class__ other_ps) in
  returned
    (for_each (elements (_set other_ps))
       (fun op =>
          if bool_decide (op ∈ pnames) then
            v <~ lift (__getitem__ other_ps op) ;;
            _ <~ __setitem__ op v ;;
            m <~ lift (meta other_ps op) ;;
            set_meta op m
          else mret tt)
       newps).

Definition delta_from (self base_ps : ParameterSet) : result ParameterSet :=
  newps <- copy self ;;
  let fielddata := _field_data (__class__ self) in
  returned
    (for_each (parameter_names (__class__ self))
       (fun p =>
          base_value <~ lift (__getitem__ base_ps p) ;;
          new_value <~ read (fun newps => __getitem__ newps p) ;;
          if value_eq base_value new_value true default_thresh
          then modify (with_set (fun s => s ∖ {[p]}))
          else
            match fielddata p with
            | Some fld =>
                if value_eq new_value (fld_default fld) true default_thresh
                then modify (with_set (fun s => s ∪ {[p]}))
                else mret tt
            | None => mraise (KeyError p)
            end)
       newps).

End Classes.

(** ** More of [values.py] *)

(** [round_away], for a finite [x]; on not-a-number and on an infinity
    [math.floor] raises. *)
Definition round_away (x : Q) : Z :=
  let absx := Qabs x in
  let y := Qfloor absx in
  let y := if Qle_bool (1 # 2)%Q (absx - inject_Z y)%Q then (y + 1)%Z else y in
  if Qsign_neg x then (- y)%Z else y.

(** [df.reindex(columns=cols)]: the columns of those labels, in that order;
    a label the frame lacks gives a column of not-a-number. *)
Definition reindex_columns (df : DataFrame) (cols : list label) : DataFrame :=
  mkDataFrame (df_index df)
    (List.map
       (fun col => (col, match dict_get (df_data df) col with
                         | Some xs => xs
                         | None => List.map (fun _ => SFloat nan) (df_index df)
                         end))
       cols).

Definition df_drop_empty_columns (df : DataFrame) (keep : list label) : DataFrame :=
  let new_cols :=
    List.filter
      (fun col => bool_decide (col ∈ keep)
                  || negb (forallb pseudo_zero (df_getitem df col)))
      (df_columns df) in
  reindex_columns df new_cols.

Definition zero_df_like (likedf : DataFrame) : DataFrame :=
  mkDataFrame (df_index likedf)
    (List.map (fun c => (c.1, List.map (fun _ => SFloat (fin 0%Q)) (df_index likedf)))
              (df_data likedf)).

(** The remaining summary statistics.  [min], [max] and the functions of
    [statistics] belong to Python; what they return on enough data is left
    open, on an empty sequence [min] and [max] raise [ValueError] and the
    others [StatisticsError]. *)

Section Summary.

Variable min_value : list scalar -> result scalar.
Variable max_value : list scalar -> result scalar.
Variable mean_value : list scalar -> result pyfloat.
Variable median_value : list scalar -> result pyfloat.
Variable pvariance_value : list scalar -> result pyfloat.
Variable stdev_value : list scalar -> result pyfloat.

Definition builtin_min (data : list scalar) : result scalar :=
  match data with
  | [] => raise ValueError
  | _ => min_value data
  end.

Definition builtin_max (data : list scalar) : result scalar :=
  match data with
  | [] => raise ValueError
  | _ => max_value data
  end.

Definition statistics_median (data : list scalar) : result pyfloat :=
  match data with
  | [] => raise StatisticsError
  | _ => median_value data
  end.

Definition statistics_pvariance (data : list scalar) : result pyfloat :=
  match data with
  | [] => raise StatisticsError
  | _ => pvariance_value data
  end.

Definition smin (vs : list scalar) : result scalar :=
  let vs := filter_nans vs in
  if (0 <? length vs)%nat then builtin_min vs else ret (SFloat nan).

Definition smax (vs : list scalar) : result scalar :=
  let vs := filter_nans vs in
  if (0 <? length vs)%nat then builtin_max vs else ret (SFloat nan).

Definition smean (vs : list scalar) : result scalar :=
  let vs := filter_nans vs in
  if (0 <? length vs)%nat
  then m <- statistics_mean mean_value vs ;; ret (SFloat m)
  else ret (SFloat nan).

Definition smedian (vs : list scalar) : result scalar :=
  let vs := filter_nans vs in
  if (0 <? length vs)%nat
  then m <- statistics_median vs ;; ret (SFloat m)
  else ret (SFloat nan).

Definition spvar (vs : list scalar) : result scalar :=
  let vs := filter_nans vs in
  if (0 <? length vs)%nat
  then m <- statistics_pvariance vs ;; ret (SFloat m)
  else ret (SFloat nan).

Definition ssdev (vs : list scalar) : result scalar :=
  let vs := filter_nans vs in
  if (0 <? length vs)%nat
  then m <- statistics_stdev stdev_value vs ;; ret (SFloat m)
  else ret (SFloat nan).

End Summary.

(** ** [pma.py]: the summaries of a parameter meta-analysis *)

(** [ParameterMetaAnalysis], with [estimates] as the class declares it: a
    frame, or [None]. *)
Record ParameterMetaAnalysis : Type := mkParameterMetaAnalysis {
  parameter_name : scalar;
  title : scalar;
  notes : scalar;
  units : scalar;
  estimates : option DataFrame
}.

(** [self.estimates] as an object, and [self.estimates['Value']]: the
    column of that label, [KeyError] without one. *)
Definition estimates_object (self : ParameterMetaAnalysis) : value :=
  match estimates self with
  | Some df => VFrame df
  | None => VScalar SNone
  end.

Definition estimates_getitem (self : ParameterMetaAnalysis) (col : string)
    : result (list scalar) :=
  match estimates self with
  | Some df =>
      match dict_get (df_data df) (LStr col) with
      | Some vs => ret vs
      | None => raise (KeyError col)
      end
  | None => raise (KeyError col)
  end.

Section PMA.

Variable min_value max_value : list scalar -> result scalar.
Variable mean_value median_value stdev_value : list scalar -> result pyfloat.
Variable quartiles : list scalar -> result (pyfloat * pyfloat * pyfloat).

Definition quantiles (self : ParameterMetaAnalysis) : result (list (string * scalar)) :=
  b <- truthy (estimates_object self) ;;
  if b : bool then
    vs <- estimates_getitem self "Value" ;;
    v_min <- smin min_value vs ;;
    v_25 <- s25_ile quartiles vs ;;
    v_median <- smedian median_value vs ;;
    v_75 <- s75_ile quartiles vs ;;
    v_max <- smax max_value vs ;;
    ret [("min", v_min); ("25%", v_25); ("median", v_median); ("75%", v_75);
         ("max", v_max)]
  else
    ret [("min", SFloat nan); ("25%", SFloat nan); ("median", SFloat nan);
         ("75%", SFloat nan); ("max", SFloat nan)].

Definition low_mean_high (self : ParameterMetaAnalysis) : result (list (string * scalar)) :=
  b <- truthy (estimates_object self) ;;
  if b : bool then
    vs <- estimates_getitem self "Value" ;;
    v_low <- slow_dev mean_value stdev_value vs 1 false ;;
    v_mean <- smean mean_value vs ;;
    v_hi <- shi_dev mean_value stdev_value vs 1 ;;
    ret [("low", v_low); ("mean", v_mean); ("hi", v_hi)]
  else
    ret [("low", SFloat nan); ("mean", SFloat nan); ("hi", SFloat nan)].

End PMA.

(** ** More of [parameter_set.py] *)

Definition all_meta (self : ParameterSet) : gmap string yaml := _meta self.

(** ** The classes and data of the test suite *)

Module Sample.

(** [SamplePS] of [tests/test_parameter_set.py]. *)
Definition SamplePS : class :=
  mkClass "SamplePS"
    [ mkField "paramA" (VScalar SNone) false;
      mkField "paramB" (VScalar SNone) true;
      mkField "paramC" (VScalar (SFloat (fin (314 # 100)%Q))) false ]
    [ mkField "not_a_param" (VScalar (SStr "nap")) false ].


Definition world : yaml :=
  YDict [(LStr "World",
          YDict [(LInt 1990, YScalar (SInt 2));
                 (LInt 1991, YScalar (SInt 3));
                 (LInt 1993, YScalar (SInt 4))])].


(** [data1] and [data2] of [test_diff]. *)
Definition data1 : list (string * yaml) :=
  [("paramA", YScalar (SInt 20)); ("paramB", world)].

Definition data2 : list (string * yaml) :=
  [("paramA", YScalar (SInt 40));
   ("paramB", YDict [(LStr "value", world);
                     (LStr "meta", YScalar (SStr "I have metadata"))])].

(** [sample_df1] of [tests/test_values.py], its relabelled copy [d4] and
    its reindexed copy [d5]. *)
Definition sample_df1 : DataFrame :=
  mkDataFrame [LInt 0; LInt 1; LInt 2]
              [(LStr "A", [SInt 20; SInt 30; SInt 40]);
               (LStr "B", [SInt 0; SStr ""; SNone])].

Definition d4 : DataFrame :=
  mkDataFrame [LInt 0; LInt 1; LInt 2]
              [(LStr "C", [SInt 20; SInt 30; SInt 40]);
               (LStr "D", [SInt 0; SStr ""; SNone])].

Definition d5 : DataFrame :=
  mkDataFrame [LStr "a"; LStr "b"; LStr "c"]
              [(LStr "A", [SInt 20; SInt 30; SInt 40]);
               (LStr "B", [SInt 0; SStr ""; SNone])].

(** [max(a, b)] of two scalars: [b] if [b > a], else [a].  Numbers
    compare with numbers and texts with texts; any other pair has no order
    ([TypeError]). *)
Definition py_max (a b : scalar) : result scalar :=
  match as_number a, as_number b with
  | Some p, Some q => ret (if float_ltb p q then b else a)
  | None, None =>
      match a, b with
      | SStr s, SStr t => ret (if String.ltb s t then b else a)
      | _, _ => raise TypeError
      end
  | _, _ => raise TypeError
  end.

(** [ChildPS.__init__]: [super().__init__(data)], then
    [self.childParamB = max(10, self.childParamB)].  Against a mapping 10
    has no order; against a frame the comparison is cell by cell, fails on
    a text, and its outcome, a frame, has no truth value. *)
Definition ChildPS__init__ (cls : class) (data : list (string * yaml))
    : result ParameterSet :=
  self <- __init__ cls data ;;
  returned
    ((childParamB <~ read (fun self => getattr self "childParamB") ;;
      m <~ lift (match childParamB with
                 | VScalar x => m <- py_max (SInt 10) x ;; ret (VScalar m)
                 | VFrame df =>
                     if existsb (fun c => existsb is_str c.2) (df_data df)
                     then raise TypeError
                     else raise ValueError
                 | VDict _ => raise TypeError
                 end) ;;
      __setattr__ "childParamB" m) self).

(** The constructors of the test suite: [ChildPS] has its own, [SamplePS]
    the one of [ParameterSet]. *)
Definition construct : constructors :=
  fun cls data =>
    if bool_decide (__name__ cls = "ChildPS") then ChildPS__init__ cls data
    else __init__ cls data.

(** A fresh [SamplePS()] and the same after [lock()]. *)
Definition empty_ps : ParameterSet := new_object SamplePS.

Definition locked_ps : ParameterSet := (lock empty_ps).2.

(** [ps2.delta_from(ps1)] of [test_diff], for [ps1 = SamplePS(data1)] and
    [ps2 = SamplePS(data2)]. *)
Definition delta21 : result ParameterSet :=
  ps1 <- construct SamplePS data1 ;;
  ps2 <- construct SamplePS data2 ;;
  delta_from construct ps2 ps1.

(** [SamplePS(data1)] and the delta above, as objects. *)
Definition ps1 : ParameterSet :=
  match construct SamplePS data1 with
  | inr ps => ps
  | inl _ => empty_ps
  end.

Definition delta21_ps : ParameterSet :=
  match delta21 with
  | inr ps => ps
  | inl _ => empty_ps
  end.

Definition ps2 : ParameterSet :=
  match construct SamplePS data2 with
  | inr ps => ps
  | inl _ => empty_ps
  end.








End Sample.

(** ** Vocabulary of the statements *)

(** The operand [value_eq] compares once [all_zero] has had its effect. *)
Definition normalized (v : scalar) : scalar :=
  if pseudo_zero v then SFloat (fin 0%Q) else v.

(** A class the embedding covers: distinct field names, none of them
    [_locked] or reserved, and no pseudo-field under the name of a field. *)
Definition wf_class (cls : class) : Prop :=
  NoDup (parameter_names cls)
  /\ ("_locked" ∉ parameter_names cls)
  /\ (forall f, f ∈ parameter_names cls -> f ∉ reserved)
  /\ (forall p, p ∈ pseudo_fields cls -> fld_name p ∉ parameter_names cls).


Definition value_of (ps : ParameterSet) (f : string) : value :=
  match getattr ps f with
  | inr v => v
  | inl _ => VScalar SNone
  end.

Definition meta_of (ps : ParameterSet) (f : string) : yaml :=
  default (YScalar SNone) (_meta ps !! f).

(** The entry [_to_yaml_form] writes for a field, and the fields it
    writes. *)
Definition entry_of (ps : ParameterSet) (f : string) : yaml :=
  if negb (yaml_is_None (meta_of ps f))
  then YDict [(LStr "value", yaml_of_value (value_of ps f)); (LStr "meta", meta_of ps f)]
  else yaml_of_value (value_of ps f).

Definition included (ps : ParameterSet) (compact : bool) (f : string) : bool :=
  negb (compact && negb (bool_decide (f ∈ _set ps))).

Definition yaml_form_of (ps : ParameterSet) (compact : bool) : list (string * yaml) :=
  List.map (fun f => (f, entry_of ps f))
           (List.filter (included ps compact) (parameter_names (__class__ ps))).










(** What [__init__] takes out of one entry of its data: the metadata, if
    the entry is a mapping with both a ['meta'] and a ['value'] key, and the
    raw value that goes on to [_initialize_value]. *)
Definition unwrap (y : yaml) : option yaml * yaml :=
  match y with
  | YDict d =>
      match dict_get d (LStr "meta"), dict_get d (LStr "value") with
      | Some m, Some v' => (Some m, v')
      | _, _ => (None, y)
      end
  | YScalar _ => (None, y)
  end.



(** The bodies of the loops of [merged_with] and [delta_from]. *)
Definition merge_item (other_ps : ParameterSet) (op : string) : method unit :=
  if bool_decide (op ∈ parameter_names (__class__ other_ps)) then
    v <~ lift (__getitem__ other_ps op) ;;
    _ <~ __setitem__ op v ;;
    m <~ lift (meta other_ps op) ;;
    set_meta op m
  else mret tt.

Definition delta_item (cls : class) (base_ps : ParameterSet) (p : string) : method unit :=
  base_value <~ lift (__getitem__ base_ps p) ;;
  new_value <~ read (fun newps => __getitem__ newps p) ;;
  if value_eq base_value new_value true default_thresh
  then modify (with_set (fun s => s ∖ {[p]}))
  else
    match _field_data cls p with
    | Some fld =>
        if value_eq new_value (fld_default fld) true default_thresh
        then modify (with_set (fun s => s ∪ {[p]}))
        else mret tt
    | None => mraise (KeyError p)
    end.

(** The invariant of the data model: the explicit set and the keys of the
    metadata are fields of the class. *)
Definition within_schema (cls : class) (ps : ParameterSet) : Prop :=
  __class__ ps = cls
  /\ (forall f, f ∈ _set ps -> f ∈ parameter_names cls)
  /\ (forall f, is_Some (_meta ps !! f) -> f ∈ parameter_names cls).

(** A method keeps a property of the object, however it ends. *)
Definition preserves {A : Type} (P : ParameterSet -> Prop) (m : method A) : Prop :=
  forall s r s', m s = (r, s') -> P s -> P s'.

(** A method keeps a property of the object when it returns. *)
Definition keeps (P : ParameterSet -> Prop) (m : method unit) : Prop :=
  forall s s', m s = (ret tt, s') -> P s -> P s'.

(** A method that, when it raises, leaves the object as it found it. *)
Definition atomic (m : method unit) : Prop :=
  forall (ps ps' : ParameterSet) (e : exn), m ps = (raise e, ps') -> ps' = ps.

(** * Properties *)

(** ** Tolerant equality *)

Lemma value_eq_scalar (x y : scalar) (all_zero : bool) (thresh : Q) :
  value_eq (VScalar x) (VScalar y) all_zero thresh = value_eq_simple x y all_zero thresh.
Proof. reflexivity. Qed.

Lemma py_eq_str (s t : string) : py_eq (SStr s) (SStr t) = bool_decide (s = t).
Proof. reflexivity. Qed.

Lemma pseudo_zero_str (s : string) : pseudo_zero (SStr s) = true -> s = "".
Proof.
  unfold pseudo_zero, pseudo_nan. rewrite py_eq_str. cbn.
  rewrite orb_false_r. apply bool_decide_eq_true_1.
Qed.

Lemma normalized_not_str (v : scalar) :
  is_str v = false -> is_str (normalized v) = false.
Proof. unfold normalized. destruct (pseudo_zero v); auto. Qed.

Lemma is_str_normalized (v : scalar) :
  is_str (normalized v) = true -> is_str v = true.
Proof. unfold normalized. destruct (pseudo_zero v); auto. discriminate. Qed.

(** C7.  With [all_zero] set, two pseudo-zero values (zero, none, the empty
    string, not-a-number) are always [value_eq]; each operand that is
    pseudo-zero is replaced by the float zero on its own before the
    comparison; two texts are [value_eq] exactly when they are the same
    string. *)
Theorem value_eq_pseudo_zero :
  (forall (v1 v2 : scalar) (thresh : Q),
      pseudo_zero v1 = true -> pseudo_zero v2 = true ->
      value_eq (VScalar v1) (VScalar v2) true thresh = true)
  /\ (forall (v1 v2 : scalar) (thresh : Q),
         is_str v1 && is_str v2 = false ->
         value_eq (VScalar v1) (VScalar v2) true thresh
         = value_eq (VScalar (normalized v1)) (VScalar (normalized v2)) false thresh)
  /\ (forall (s1 s2 : string) (all_zero : bool) (thresh : Q),
         value_eq (VScalar (SStr s1)) (VScalar (SStr s2)) all_zero thresh = true
         <-> s1 = s2).
Proof.
  split; [| split].
  - intros v1 v2 thresh H1 H2. rewrite value_eq_scalar. unfold value_eq_simple.
    destruct (is_str v1 && is_str v2) eqn:Hs.
    + apply andb_prop in Hs as [Ha Hb].
      destruct v1; try discriminate. destruct v2; try discriminate.
      apply pseudo_zero_str in H1, H2. subst. reflexivity.
    + rewrite H1, H2. reflexivity.
  - intros v1 v2 thresh Hs. rewrite !value_eq_scalar. unfold value_eq_simple. rewrite Hs.
    destruct (is_str (normalized v1) && is_str (normalized v2)) eqn:Hn.
    + apply andb_prop in Hn as [Ha Hb].
      apply is_str_normalized in Ha, Hb. rewrite Ha, Hb in Hs. discriminate.
    + reflexivity.
  - intros s1 s2 all_zero thresh. rewrite value_eq_scalar. unfold value_eq_simple.
    cbn [is_str andb]. rewrite py_eq_str. apply bool_decide_eq_true.
Qed.

Lemma value_eq_pseudo_zero_witness :
  value_eq (VScalar SNone) (VScalar (SFloat nan)) true default_thresh = true
  /\ value_eq (VScalar (SStr "")) (VScalar (SInt 0)) true default_thresh = true.
Proof.
  split.
  - apply (proj1 value_eq_pseudo_zero); reflexivity.
  - apply (proj1 value_eq_pseudo_zero); reflexivity.
Defined.

(** ** Tabular equality *)

Lemma forallb_zip_lookup {A : Type} (f : A * A -> bool) (l1 l2 : list A) :
  forallb f (zip l1 l2) = true
  <-> (forall (i : nat) (x y : A), l1 !! i = Some x -> l2 !! i = Some y -> f (x, y) = true).
Proof.
  revert l2. induction l1 as [|a l1 IH]; intros l2.
  - split; [intros _ i x y Hx; discriminate | reflexivity].
  - destruct l2 as [|b l2].
    + split; [intros _ i x y _ Hy; discriminate | reflexivity].
    + cbn. rewrite andb_true_iff, IH. split.
      * intros [Hab Hrest] [|i] x y Hx Hy; cbn in *.
        -- by simplify_eq.
        -- by eapply Hrest.
      * intros H. split.
        -- by apply (H 0%nat).
        -- intros i x y Hx Hy. by apply (H (S i)).
Qed.

Lemma forallb_elem_of {A : Type} (f : A -> bool) (l : list A) :
  forallb f l = true <-> (forall x, x ∈ l -> f x = true).
Proof.
  rewrite forallb_forall. split; intros H x Hx; apply H; by apply list_elem_of_In.
Qed.

Lemma df_value_eq_spec (d1 d2 : DataFrame) (all_zero : bool) (thresh : Q) :
  df_value_eq d1 d2 all_zero thresh = true
  <-> df_index d1 = df_index d2
      /\ df_columns d1 = df_columns d2
      /\ (forall (col : label), col ∈ df_columns d1 ->
          forall (i : nat) (x1 x2 : scalar),
            df_getitem d1 col !! i = Some x1 -> df_getitem d2 col !! i = Some x2 ->
            value_eq (VScalar x1) (VScalar x2) all_zero thresh = true).
Proof.
  unfold df_value_eq, index_equals.
  destruct (bool_decide_reflect (df_index d1 = df_index d2)) as [Hi|Hi]; cbn.
  - destruct (bool_decide_reflect (df_columns d1 = df_columns d2)) as [Hc|Hc]; cbn.
    + rewrite forallb_elem_of. split.
      * intros H. repeat split; auto. intros col Hcol.
        specialize (H col Hcol). rewrite forallb_zip_lookup in H. exact H.
      * intros (_ & _ & H) col Hcol. apply forallb_zip_lookup.
        intros i x y Hx Hy. exact (H col Hcol i x y Hx Hy).
    + split; [discriminate | intros (_ & ? & _); contradiction].
  - split; [discriminate | intros (? & _); contradiction].
Qed.

(** C6.  Two frames are [value_eq] exactly when their indexes are the same
    sequence, their column labels are the same sequence and all cells at the
    same column and position are [value_eq] under the same [all_zero] and
    [thresh]; frames whose labelling differs are never equal; a frame is
    never [value_eq] to a value that is not a frame, on either side. *)
Theorem tabular_equality (d1 d2 : DataFrame) (all_zero : bool) (thresh : Q) :
  (value_eq (VFrame d1) (VFrame d2) all_zero thresh = true
   <-> df_index d1 = df_index d2
       /\ df_columns d1 = df_columns d2
       /\ (forall (col : label), col ∈ df_columns d1 ->
           forall (i : nat) (x1 x2 : scalar),
             df_getitem d1 col !! i = Some x1 -> df_getitem d2 col !! i = Some x2 ->
             value_eq (VScalar x1) (VScalar x2) all_zero thresh = true))
  /\ (df_index d1 <> df_index d2 \/ df_columns d1 <> df_columns d2 ->
      value_eq (VFrame d1) (VFrame d2) all_zero thresh = false)
  /\ (forall (v : value), (forall d, v <> VFrame d) ->
      value_eq (VFrame d1) v all_zero thresh = false
      /\ value_eq v (VFrame d1) all_zero thresh = false).
Proof.
  split; [| split].
  - apply df_value_eq_spec.
  - intros H. apply not_true_is_false. intros Heq.
    apply df_value_eq_spec in Heq as (Hi & Hc & _). tauto.
  - intros v Hv. destruct v as [s|d|d]; cbn; auto.
    exfalso. by apply (Hv d).
Qed.

Lemma tabular_equality_witness :
  value_eq (VFrame Sample.sample_df1) (VFrame Sample.d4) true default_thresh = false
  /\ value_eq (VFrame Sample.sample_df1) (VFrame Sample.d5) true default_thresh = false
  /\ value_eq (VFrame Sample.sample_df1) (VScalar (SFloat (fin 20%Q))) true default_thresh = false.
Proof.
  split; [| split].
  - apply (proj1 (proj2 (tabular_equality Sample.sample_df1 Sample.d4 true default_thresh))).
    right. discriminate.
  - apply (proj1 (proj2 (tabular_equality Sample.sample_df1 Sample.d5 true default_thresh))).
    left. discriminate.
  - apply (proj2 (proj2 (tabular_equality Sample.sample_df1 Sample.d4 true default_thresh))).
    discriminate.
Defined.

(** ** Summary statistics *)

Lemma percentiles_nan_below_three
    (quartiles : list scalar -> result (pyfloat * pyfloat * pyfloat)) (vs : list scalar) :
  (length (filter_nans vs) <= 2)%nat ->
  s25_ile quartiles vs = ret (SFloat nan) /\ s75_ile quartiles vs = ret (SFloat nan).
Proof.
  intros H. unfold s25_ile, s75_ile.
  assert ((2 <? length (filter_nans vs))%nat = false) as -> by (apply Nat.ltb_ge; lia).
  auto.
Qed.

Lemma percentiles_nan_below_three_witness :
  s25_ile (fun _ => ret (fin 0%Q, fin 0%Q, fin 0%Q)) [SInt 0; SStr ""; SNone] = ret (SFloat nan)
  /\ s75_ile (fun _ => ret (fin 0%Q, fin 0%Q, fin 0%Q)) [SInt 0; SStr ""; SNone] = ret (SFloat nan).
Proof. apply percentiles_nan_below_three. vm_compute. lia. Defined.

Lemma slow_dev_nothing_left
    (mean_value stdev_value : list scalar -> result pyfloat)
    (vs : list scalar) (n : Z) (minzero : bool) :
  filter_nans vs = [] -> slow_dev mean_value stdev_value vs n minzero = ret (SFloat nan).
Proof. intros H. unfold slow_dev. rewrite H. reflexivity. Qed.

Lemma slow_dev_nothing_left_witness :
  slow_dev (fun _ => ret nan) (fun _ => ret nan) [SNone; SStr ""] 1 false = ret (SFloat nan).
Proof. apply slow_dev_nothing_left. reflexivity. Defined.

(** C8.  The deviation bands do not return not-a-number on too few samples:
    [shi_dev] raises [StatisticsError] when nothing is left after the
    filter (the mean is taken before the length is looked at) and, like
    [slow_dev], when one sample is left (the standard deviation needs
    two). *)
Theorem deviation_bands_raise
    (mean_value stdev_value : list scalar -> result pyfloat) (n : Z) :
  shi_dev mean_value stdev_value [] n = raise StatisticsError
  /\ shi_dev mean_value stdev_value [SNone; SStr ""; SFloat nan] n = raise StatisticsError
  /\ shi_dev (fun _ => ret (fin 1%Q)) stdev_value [SFloat (fin 1%Q)] n = raise StatisticsError
  /\ (forall minzero : bool,
         slow_dev (fun _ => ret (fin 1%Q)) stdev_value [SFloat (fin 1%Q)] n minzero
         = raise StatisticsError).
Proof. repeat split. Qed.

(** ** Locking and field access *)

Lemma setattr_locked (name : string) (v : value) (ps : ParameterSet) :
  truthy (islocked ps) = ret true ->
  __setattr__ name v ps = (raise (AttributeError Cannot_set_locked), ps).
Proof. intros H. unfold __setattr__, mbind, read. rewrite H. reflexivity. Qed.

Lemma setattr_unlocked (name : string) (v : value) (ps : ParameterSet) :
  truthy (islocked ps) = ret false ->
  __setattr__ name v ps
  = (ret tt,
     if bool_decide (name ∈ parameter_names (__class__ (object_setattr name v ps)))
     then with_set (fun s => s ∪ {[name]}) (object_setattr name v ps)
     else object_setattr name v ps).
Proof.
  intros H. unfold __setattr__, mbind, read, modify. rewrite H. cbn.
  by case_bool_decide.
Qed.

Lemma object_setattr_class (name : string) (v : value) (ps : ParameterSet) :
  __class__ (object_setattr name v ps) = __class__ ps.
Proof. unfold object_setattr. by case_bool_decide. Qed.

Lemma set_meta_locked (name : string) (m : yaml) (ps : ParameterSet) :
  truthy (islocked ps) = ret true ->
  set_meta name m ps = (raise (AttributeError (Cannot_alter_locked name)), ps).
Proof. intros H. unfold set_meta, mbind, read. rewrite H. reflexivity. Qed.

Lemma set_meta_unlocked (name : string) (m : yaml) (ps : ParameterSet) :
  truthy (islocked ps) = ret false ->
  name ∈ parameter_names (__class__ ps) ->
  set_meta name m ps
  = (ret tt, with_set (fun s => s ∪ {[name]}) (with_meta (insert name m) ps)).
Proof.
  intros H Hin. unfold set_meta, mbind, read, modify. rewrite H. cbn.
  by rewrite bool_decide_eq_true_2.
Qed.

Lemma lock_sets_flag (ps0 ps : ParameterSet) :
  lock ps0 = (ret tt, ps) ->
  _locked ps = VScalar (SBool true) /\ __class__ ps = __class__ ps0
  /\ __dict__ ps = __dict__ ps0 /\ _meta ps = _meta ps0.
Proof.
  unfold lock, __setattr__, mbind, read, modify, mraise, mret.
  destruct (truthy (islocked ps0)) as [e|[|]]; cbn; try discriminate.
  case_bool_decide; intros [= <-]; auto.
Qed.

(** C10.  [lock()] on a parameter set that a call of [lock()] has already
    locked raises the [AttributeError] of the guarded [__setattr__], and
    leaves the object as it is. *)
Theorem lock_twice_raises (ps0 ps : ParameterSet) :
  lock ps0 = (ret tt, ps) ->
  lock ps = (raise (AttributeError Cannot_set_locked), ps)
  /\ is_LockedError (AttributeError Cannot_set_locked) = true.
Proof.
  intros H. apply lock_sets_flag in H as (Hl & _).
  split; [| reflexivity]. apply setattr_locked. unfold islocked. by rewrite Hl.
Qed.

Lemma lock_twice_raises_witness :
  lock Sample.locked_ps = (raise (AttributeError Cannot_set_locked), Sample.locked_ps)
  /\ is_LockedError (AttributeError Cannot_set_locked) = true.
Proof. apply (lock_twice_raises Sample.empty_ps). reflexivity. Defined.

(** C9, as the code has it.  For a name outside the schema, bracket-style
    get, bracket-style set and [meta] raise the "No such parameter" error
    whatever the state of the object, and so does [set_meta] on an unlocked
    one; on a locked one [set_meta] checks the lock first and raises the
    locked error.  In every case the object is left as it was. *)
Theorem unknown_parameter_raises (ps : ParameterSet) (n : string) :
  n ∉ parameter_names (__class__ ps) ->
  __getitem__ ps n = raise (AttributeError (No_such_parameter n))
  /\ meta ps n = raise (AttributeError (No_such_parameter n))
  /\ (forall v : value,
         __setitem__ n v ps = (raise (AttributeError (No_such_parameter n)), ps))
  /\ (forall m : yaml,
         (truthy (islocked ps) = ret false ->
          set_meta n m ps = (raise (AttributeError (No_such_parameter n)), ps))
         /\ (truthy (islocked ps) = ret true ->
             set_meta n m ps = (raise (AttributeError (Cannot_alter_locked n)), ps))
         /\ exists e : exn, set_meta n m ps = (raise e, ps))
  /\ is_UnknownParameterError (AttributeError (No_such_parameter n)) = true.
Proof.
  intros Hn.
  assert (bool_decide (n ∈ parameter_names (__class__ ps)) = false) as Hb
      by by apply bool_decide_eq_false_2.
  repeat split.
  - unfold __getitem__. by rewrite Hb.
  - unfold meta. by rewrite Hb.
  - intros v. unfold __setitem__, mbind, read. cbn. by rewrite Hb.
  - intros H. unfold set_meta, mbind, read. rewrite H. cbn. by rewrite Hb.
  - by apply set_meta_locked.
  - unfold set_meta, mbind, read.
    destruct (truthy (islocked ps)) as [e|[|]]; cbn.
    + by exists e.
    + by eexists.
    + rewrite Hb. by eexists.
Qed.

Lemma unknown_parameter_raises_witness :
  __getitem__ Sample.empty_ps "noSuchParam" = raise (AttributeError (No_such_parameter "noSuchParam"))
  /\ meta Sample.empty_ps "noSuchParam" = raise (AttributeError (No_such_parameter "noSuchParam")).
Proof.
  assert ("noSuchParam" ∉ parameter_names (__class__ Sample.empty_ps)) as H.
  { apply (bool_decide_eq_false_1 _). reflexivity. }
  pose proof (unknown_parameter_raises Sample.empty_ps "noSuchParam" H) as (H1 & H2 & _).
  exact (conj H1 H2).
Defined.

(** The claim C9 fails on a locked instance: [set_meta] of an unknown name
    raises the locked error, not the unknown-parameter one. *)
Lemma set_meta_unknown_on_locked :
  bool_decide ("noSuchParam" ∈ parameter_names (__class__ Sample.locked_ps)) = false
  /\ set_meta "noSuchParam" (YScalar (SStr "note")) Sample.locked_ps
     = (raise (AttributeError (Cannot_alter_locked "noSuchParam")), Sample.locked_ps)
  /\ is_UnknownParameterError (AttributeError (Cannot_alter_locked "noSuchParam")) = false.
Proof. repeat split. Qed.

(** C4, as the code has it.  On a schema field the attribute and the bracket
    paths coincide, for reading and for setting (same outcome, same object
    left behind).  On any other name they differ: the bracket paths raise
    "No such parameter" and change nothing, while the attribute set on an
    unlocked object, for a name the class does not use itself, stores the
    attribute, outside the explicit set and the metadata. *)
Theorem attribute_and_bracket_access (ps : ParameterSet) (f : string) (v : value) :
  (f ∈ parameter_names (__class__ ps) ->
   __getitem__ ps f = getattr ps f /\ __setitem__ f v ps = __setattr__ f v ps)
  /\ (f ∉ parameter_names (__class__ ps) ->
      __getitem__ ps f = raise (AttributeError (No_such_parameter f))
      /\ __setitem__ f v ps = (raise (AttributeError (No_such_parameter f)), ps)
      /\ (f ∉ reserved -> truthy (islocked ps) = ret false ->
          exists ps' : ParameterSet,
            __setattr__ f v ps = (ret tt, ps')
            /\ getattr ps' f = ret v
            /\ _set ps' = _set ps /\ _meta ps' = _meta ps)).
Proof.
  split.
  - intros Hin. unfold __getitem__, __setitem__, mbind, read. cbn.
    by rewrite bool_decide_eq_true_2.
  - intros Hn.
    assert (bool_decide (f ∈ parameter_names (__class__ ps)) = false) as Hb
        by by apply bool_decide_eq_false_2.
    repeat split.
    + unfold __getitem__. by rewrite Hb.
    + unfold __setitem__, mbind, read. cbn. by rewrite Hb.
    + intros _ Hl. rewrite (setattr_unlocked _ _ _ Hl), object_setattr_class, Hb.
      eexists. split; [reflexivity |].
      unfold getattr, object_setattr.
      destruct (bool_decide_reflect (f = "_locked")); cbn.
      * auto.
      * rewrite lookup_insert_eq. auto.
Qed.

Lemma attribute_and_bracket_access_witness :
  __getitem__ Sample.empty_ps "paramC" = getattr Sample.empty_ps "paramC"
  /\ __setitem__ "paramC" (VScalar (SInt 4)) Sample.empty_ps
     = __setattr__ "paramC" (VScalar (SInt 4)) Sample.empty_ps.
Proof.
  apply (proj1 (attribute_and_bracket_access Sample.empty_ps "paramC" (VScalar (SInt 4)))).
  apply (bool_decide_eq_true_1 _). reflexivity.
Defined.

(** The claim C4 fails on a name outside the schema: the attribute set
    succeeds where the bracket set raises. *)
Lemma attribute_and_bracket_differ :
  bool_decide ("foo" ∈ parameter_names (__class__ Sample.empty_ps)) = false
  /\ (__setattr__ "foo" (VScalar (SInt 1)) Sample.empty_ps).1 = ret tt
  /\ (__setitem__ "foo" (VScalar (SInt 1)) Sample.empty_ps).1
     = raise (AttributeError (No_such_parameter "foo"))
  /\ __setattr__ "foo" (VScalar (SInt 1)) Sample.empty_ps
     <> __setitem__ "foo" (VScalar (SInt 1)) Sample.empty_ps.
Proof. repeat split. intros H. apply (f_equal fst) in H. discriminate H. Qed.

(** ** Schemas and field reads *)

Lemma find_name_app (l r : list field) (f : string) :
  f ∈ List.map fld_name l ->
  List.find (fun x => bool_decide (fld_name x = f)) (l ++ r)
  = List.find (fun x => bool_decide (fld_name x = f)) l.
Proof.
  induction l as [|a l IH]; intros Hin; [by apply elem_of_nil in Hin|].
  cbn in *. destruct (bool_decide_reflect (fld_name a = f)) as [Heq|Hne]; [done|].
  apply elem_of_cons in Hin as [Hin|Hin]; [congruence|]. by apply IH.
Qed.

Lemma field_data_Some (cls : class) (f : string) :
  f ∈ parameter_names cls ->
  exists fld, _field_data cls f = Some fld /\ fld_name fld = f /\ fld ∈ fields cls.
Proof.
  unfold parameter_names, _field_data, __dataclass_fields__. intros Hin.
  rewrite find_name_app by done.
  induction (fields cls) as [|a l IH]; [by apply elem_of_nil in Hin|].
  cbn in *. destruct (bool_decide_reflect (fld_name a = f)) as [Heq|Hne].
  - exists a. repeat split; auto. apply list_elem_of_here.
  - apply elem_of_cons in Hin as [Hin|Hin]; [congruence|].
    destruct (IH Hin) as (fld & H1 & H2 & H3).
    exists fld. repeat split; auto. by apply list_elem_of_further.
Qed.

Lemma field_data_name (cls : class) (f : string) (fld : field) :
  _field_data cls f = Some fld ->
  fld_name fld = f /\ fld ∈ __dataclass_fields__ cls.
Proof.
  unfold _field_data. intros H. apply find_some in H as [Hin Hb].
  apply bool_decide_eq_true_1 in Hb. apply list_elem_of_In in Hin. done.
Qed.

Lemma field_data_inv (cls : class) (f : string) (fld : field) :
  f ∈ parameter_names cls -> _field_data cls f = Some fld ->
  fld_name fld = f /\ fld ∈ fields cls.
Proof.
  intros Hin H. destruct (field_data_Some cls f Hin) as (fld' & H' & Hn & Hf).
  rewrite H in H'. injection H' as <-. done.
Qed.

(** A name [__dataclass_fields__] has, and [dataclasses.fields] has not. *)
Lemma field_data_pseudo (cls : class) (f : string) (fld : field) :
  f ∉ parameter_names cls -> _field_data cls f = Some fld ->
  fld_name fld = f /\ fld ∈ pseudo_fields cls.
Proof.
  intros Hn H. apply field_data_name in H as [Hf Hin]. split; [done|].
  apply elem_of_app in Hin as [Hin|Hin]; [|done].
  exfalso. apply Hn. subst f. unfold parameter_names.
  apply list_elem_of_In, in_map, list_elem_of_In, Hin.
Qed.

Lemma field_data_None (cls : class) (f : string) :
  f ∉ List.map fld_name (__dataclass_fields__ cls) <-> _field_data cls f = None.
Proof.
  unfold _field_data. induction (__dataclass_fields__ cls) as [|a l IH]; cbn.
  - split; [done | intros _ H; by apply elem_of_nil in H].
  - rewrite not_elem_of_cons. destruct (bool_decide_reflect (fld_name a = f)) as [Heq|Hne].
    + split; [intros [H _]; congruence | discriminate].
    + rewrite IH. split; [tauto | intros H; split; [congruence | done]].
Qed.



Lemma getattr_field (ps : ParameterSet) (f : string) :
  f ∈ parameter_names (__class__ ps) -> getattr ps f = ret (value_of ps f).
Proof.
  intros Hin. unfold value_of, getattr.
  destruct (bool_decide (f = "_locked")); [done|].
  destruct (__dict__ ps !! f); [done|].
  destruct (field_data_Some _ _ Hin) as (fld & -> & _). done.
Qed.

Lemma getitem_field (ps : ParameterSet) (f : string) :
  f ∈ parameter_names (__class__ ps) -> __getitem__ ps f = ret (value_of ps f).
Proof.
  intros Hin. unfold __getitem__. rewrite bool_decide_eq_true_2 by done.
  by apply getattr_field.
Qed.

Lemma meta_field (ps : ParameterSet) (f : string) :
  f ∈ parameter_names (__class__ ps) -> meta ps f = ret (meta_of ps f).
Proof. intros Hin. unfold meta. by rewrite bool_decide_eq_true_2. Qed.


(** ** Serialization *)

Lemma dict_setitem_keys {A : Type} (d : list (string * A)) (k : string) (a : A) (f : string) :
  f ∈ (dict_setitem d k a).*1 <-> f ∈ d.*1 \/ f = k.
Proof.
  induction d as [|[k' b] d IH]; cbn.
  - rewrite list_elem_of_singleton. split; [auto | intros [H|H]; [by apply elem_of_nil in H | done]].
  - destruct (decide (k' = k)) as [->|Hne]; cbn.
    + rewrite !elem_of_cons. tauto.
    + rewrite !elem_of_cons, IH. tauto.
Qed.

Lemma dict_setitem_fresh {K A : Type} `{EqDecision K} (d : list (K * A)) (k : K) (a : A) :
  k ∉ d.*1 -> dict_setitem d k a = d ++ [(k, a)].
Proof.
  induction d as [|[k' b] d IH]; cbn; [done|]. intros Hn.
  apply not_elem_of_cons in Hn as [Hne Hn].
  destruct (decide (k' = k)); [congruence|]. by rewrite IH.
Qed.

Lemma yaml_form_item_field (ps : ParameterSet) (compact : bool)
    (the_data : list (string * yaml)) (f : string) :
  f ∈ parameter_names (__class__ ps) ->
  yaml_form_item ps compact the_data f
  = ret (if included ps compact f then dict_setitem the_data f (entry_of ps f) else the_data).
Proof.
  intros Hin. unfold yaml_form_item, included, entry_of.
  rewrite (getitem_field _ _ Hin). cbn.
  destruct (compact && negb (bool_decide (f ∈ _set ps))); cbn; [done|].
  rewrite (meta_field _ _ Hin). done.
Qed.

Lemma yaml_form_loop_keys (ps : ParameterSet) (compact : bool)
    (l : list string) (d0 : list (string * yaml)) :
  (forall f, f ∈ l -> f ∈ parameter_names (__class__ ps)) ->
  exists d, yaml_form_loop ps compact l d0 = ret d
            /\ forall f, f ∈ d.*1 <-> f ∈ d0.*1 \/ (f ∈ l /\ included ps compact f = true).
Proof.
  revert d0. induction l as [|p l IH]; intros d0 Hl; cbn.
  - exists d0. split; [done|]. intros f. rewrite elem_of_nil. tauto.
  - rewrite yaml_form_item_field by (apply Hl, list_elem_of_here). cbn.
    destruct (IH (if included ps compact p then dict_setitem d0 p (entry_of ps p) else d0))
      as (d & Hd & Hk).
    { intros f Hf. by apply Hl, list_elem_of_further. }
    exists d. split; [done|]. intros f. rewrite Hk, elem_of_cons.
    destruct (included ps compact p) eqn:Hp.
    + rewrite dict_setitem_keys. split.
      * intros [[H| ->]|[H Hi]]; auto.
      * intros [H|[[->|H] Hi]]; auto.
    + split; [tauto|]. intros [H|[[->|H] Hi]]; auto. congruence.
Qed.

Lemma yaml_form_loop_spec (ps : ParameterSet) (compact : bool)
    (l : list string) (d0 : list (string * yaml)) :
  (forall f, f ∈ l -> f ∈ parameter_names (__class__ ps)) ->
  NoDup l -> (forall f, f ∈ l -> f ∉ d0.*1) ->
  yaml_form_loop ps compact l d0
  = ret (d0 ++ List.map (fun f => (f, entry_of ps f)) (List.filter (included ps compact) l)).
Proof.
  revert d0. induction l as [|p l IH]; intros d0 Hl Hnd Hfresh; cbn.
  - by rewrite app_nil_r.
  - apply NoDup_cons in Hnd as [Hp Hnd].
    rewrite yaml_form_item_field by (apply Hl, list_elem_of_here). cbn.
    rewrite IH.
    + destruct (included ps compact p); [|done].
      rewrite dict_setitem_fresh by (apply Hfresh, list_elem_of_here).
      cbn. by rewrite <- app_assoc.
    + intros f Hf. by apply Hl, list_elem_of_further.
    + done.
    + intros f Hf. destruct (included ps compact p).
      * rewrite dict_setitem_keys. intros [H| ->]; [|done].
        by apply (Hfresh f); [apply list_elem_of_further|].
      * by apply Hfresh, list_elem_of_further.
Qed.

Lemma to_yaml_form_spec (ps : ParameterSet) (compact : bool) :
  NoDup (parameter_names (__class__ ps)) ->
  _to_yaml_form ps compact = ret (yaml_form_of ps compact).
Proof.
  intros Hnd. unfold _to_yaml_form, yaml_form_of.
  rewrite yaml_form_loop_spec; auto. intros f _. apply not_elem_of_nil.
Qed.

(** C3, as the code has it.  [_to_yaml_form] always returns; with
    [compact] a schema field is left out exactly when it is not in the
    explicit set, whatever the metadata mapping holds for it; without
    [compact] every schema field is written. *)
Theorem compact_omits_unset (ps : ParameterSet) :
  exists d full,
    _to_yaml_form ps true = ret d
    /\ _to_yaml_form ps false = ret full
    /\ forall f, f ∈ parameter_names (__class__ ps) ->
                 (f ∉ d.*1 <-> f ∉ _set ps) /\ (f ∈ d.*1 <-> f ∈ _set ps) /\ f ∈ full.*1.
Proof.
  destruct (yaml_form_loop_keys ps true (parameter_names (__class__ ps)) []) as (d & Hd & Hk); [done|].
  destruct (yaml_form_loop_keys ps false (parameter_names (__class__ ps)) []) as (full & Hf & Hkf); [done|].
  exists d, full. repeat split; auto.
  - intros Hn Hs. apply Hn, Hk. right. split; [done|].
    unfold included. by rewrite bool_decide_eq_true_2.
  - intros Hn Hin. apply Hk in Hin as [Hin|[_ Hi]]; [by apply elem_of_nil in Hin|].
    unfold included in Hi. rewrite bool_decide_eq_false_2 in Hi by done. discriminate.
  - intros Hin. apply Hk in Hin as [Hin|[_ Hi]]; [by apply elem_of_nil in Hin|].
    unfold included in Hi. cbn in Hi. apply negb_true_iff, negb_false_iff in Hi.
    by apply bool_decide_eq_true_1 in Hi.
  - intros Hs. apply Hk. right. split; [done|].
    unfold included. by rewrite bool_decide_eq_true_2.
  - apply Hkf. right. done.
Qed.

(** ** A frame survives [to_dict] followed by [from_dict] *)












(** ** Construction *)

Lemma init_item_unknown (cls : class) (k : string) (y : yaml) (s : ParameterSet) :
  _field_data cls k = None -> init_item cls (k, y) s = (ret tt, s).
Proof. intros H. unfold init_item. cbn. by rewrite H. Qed.



Lemma setitem_unknown (k : string) (v : value) (s : ParameterSet) :
  k ∉ parameter_names (__class__ s) ->
  __setitem__ k v s = (raise (AttributeError (No_such_parameter k)), s).
Proof.
  intros Hn. unfold __setitem__, mbind, read. cbn. by rewrite bool_decide_eq_false_2.
Qed.

(** A key that names a pseudo-field passes the test [k in fielddata] and
    fails at [self[k] = v]. *)
Lemma init_item_pseudo (cls : class) (k : string) (y : yaml) (fld : field) (s : ParameterSet) :
  _field_data cls k = Some fld -> k ∉ parameter_names cls -> __class__ s = cls ->
  init_item cls (k, y) s
  = let s1 := match (unwrap y).1 with
              | Some m => with_meta (insert k m) s
              | None => s
              end in
    match _initialize_value k (unwrap y).2 (fld_pdtype fld) with
    | inl e => (inl e, s1)
    | inr v => (raise (AttributeError (No_such_parameter k)), s1)
    end.
Proof.
  intros Hf Hn Hc.
  unfold init_item. cbn [fst snd]. rewrite Hf.
  unfold unwrap. destruct y as [sc|d].
  - cbn [fst snd]. unfold mbind, mret, lift, modify.
    cbn -[__setitem__ _initialize_value with_set with_dict with_meta].
    destruct (_initialize_value k (YScalar sc) (fld_pdtype fld)) as [e|v]; [done|].
    rewrite setitem_unknown by (rewrite ?Hc; done). done.
  - destruct (dict_get d (LStr "meta")) as [m|]; [destruct (dict_get d (LStr "value")) as [v'|]|];
      cbn [fst snd]; unfold mbind, mret, lift, modify;
      cbn -[__setitem__ _initialize_value with_set with_dict with_meta].
    + destruct (_initialize_value k v' (fld_pdtype fld)) as [e|v]; [done|].
      rewrite setitem_unknown by (cbn; rewrite ?Hc; done). done.
    + destruct (_initialize_value k (YDict d) (fld_pdtype fld)) as [e|v]; [done|].
      rewrite setitem_unknown by (rewrite ?Hc; done). done.
    + destruct (_initialize_value k (YDict d) (fld_pdtype fld)) as [e|v]; [done|].
      rewrite setitem_unknown by (rewrite ?Hc; done). done.
Qed.







Lemma yaml_form_keys (src : ParameterSet) (compact : bool) :
  (yaml_form_of src compact).*1
  = List.filter (included src compact) (parameter_names (__class__ src)).
Proof.
  unfold yaml_form_of.
  induction (List.filter (included src compact) (parameter_names (__class__ src)))
    as [|f l IH]; cbn; [done|]. by rewrite IH.
Qed.



(** ** [value_eq] is reflexive on scalars and frames *)

Lemma py_eq_refl_or_nan (x : scalar) : py_eq x x = true \/ as_number x = Some nan.
Proof.
  destruct x as [|b|z|[|sg|q]|s]; cbn; auto; left.
  - apply Qeq_bool_iff. reflexivity.
  - apply Qeq_bool_iff. reflexivity.
  - by destruct sg.
  - apply Qeq_bool_iff. reflexivity.
  - by apply bool_decide_eq_true_2.
Qed.

Lemma approx_eq_refl (x : scalar) (abs_tol rel_tol : Q) :
  approx_eq x x abs_tol rel_tol true = true.
Proof.
  unfold approx_eq. destruct (py_eq_refl_or_nan x) as [-> | Hn]; [done|].
  rewrite Hn. by destruct (py_eq x x).
Qed.

Lemma value_eq_simple_refl (x : scalar) (all_zero : bool) (thresh : Q) :
  value_eq_simple x x all_zero thresh = true.
Proof.
  unfold value_eq_simple. destruct (is_str x && is_str x) eqn:Hs.
  - destruct x; try discriminate. rewrite py_eq_str. by apply bool_decide_eq_true_2.
  - rewrite approx_eq_refl. apply orb_true_r.
Qed.

Lemma df_value_eq_refl (df : DataFrame) (all_zero : bool) (thresh : Q) :
  df_value_eq df df all_zero thresh = true.
Proof.
  apply df_value_eq_spec. repeat split; auto.
  intros col _ i x1 x2 H1 H2. rewrite H1 in H2. injection H2 as <-.
  rewrite value_eq_scalar. apply value_eq_simple_refl.
Qed.

Lemma value_eq_refl (v : value) (all_zero : bool) (thresh : Q) :
  (forall d, v <> VDict d) -> value_eq v v all_zero thresh = true.
Proof.
  intros Hd. destruct v as [x|d|df].
  - rewrite value_eq_scalar. apply value_eq_simple_refl.
  - by destruct (Hd d).
  - apply df_value_eq_refl.
Qed.


(** ** [copy] *)




Lemma SamplePS_wf : wf_class Sample.SamplePS.
Proof.
  split; [|split; [|split]].
  - apply (bool_decide_eq_true_1 _). vm_compute. reflexivity.
  - apply (bool_decide_eq_false_1 _). vm_compute. reflexivity.
  - intros f Hf. apply (bool_decide_eq_false_1 _).
    cbn in Hf. repeat (apply elem_of_cons in Hf as [-> | Hf]);
      [vm_compute; reflexivity .. | by apply elem_of_nil in Hf].
  - intros p Hp. apply (bool_decide_eq_false_1 _).
    cbn in Hp. repeat (apply elem_of_cons in Hp as [-> | Hp]);
      [vm_compute; reflexivity .. | by apply elem_of_nil in Hp].
Qed.

Lemma SamplePS_inherits : inherits_init Sample.construct Sample.SamplePS.
Proof. intros data. reflexivity. Qed.


Lemma ps1_class : __class__ Sample.ps1 = Sample.SamplePS.
Proof. vm_compute. reflexivity. Qed.





(** The claim C3 fails on the delta of [test_diff]: [paramB] has a metadata
    entry, is not in the explicit set, and is left out of the compact
    form. *)
Lemma compact_drops_metadata :
  Sample.delta21 = ret Sample.delta21_ps
  /\ _meta Sample.delta21_ps !! "paramB" = Some (YScalar (SStr "I have metadata"))
  /\ bool_decide ("paramB" ∈ _set Sample.delta21_ps) = false
  /\ bool_decide ("paramB" ∈ parameter_names (__class__ Sample.delta21_ps)) = true
  /\ _to_yaml_form Sample.delta21_ps true = ret [("paramA", YScalar (SInt 40))].
Proof. repeat (split; [vm_compute; reflexivity|]). vm_compute. reflexivity. Qed.

(** ** Lock finality *)



Lemma setitem_field (ps : ParameterSet) (f : string) (v : value) :
  f ∈ parameter_names (__class__ ps) -> __setitem__ f v ps = __setattr__ f v ps.
Proof.
  intros Hin. unfold __setitem__, mbind, read. cbn -[__setattr__].
  by rewrite bool_decide_eq_true_2.
Qed.




(** ** The loops of [merged_with] and [delta_from] *)

Lemma merged_with_unfold (construct : constructors) (self other_ps : ParameterSet) :
  merged_with construct self other_ps
  = (the_data <- _to_yaml_form self true ;;
     newps <- construct (__class__ other_ps) the_data ;;
     returned (for_each (elements (_set other_ps)) (merge_item other_ps) newps)).
Proof. reflexivity. Qed.

Lemma delta_from_unfold (construct : constructors) (self base_ps : ParameterSet) :
  delta_from construct self base_ps
  = (newps <- copy construct self ;;
     returned (for_each (parameter_names (__class__ self))
                        (delta_item (__class__ self) base_ps) newps)).
Proof. reflexivity. Qed.






Lemma elem_of_remove (t : gset string) (f k : string) :
  f ∈ t ∖ {[k]} <-> f ∈ t /\ f <> k.
Proof. rewrite elem_of_difference, elem_of_singleton. tauto. Qed.



(** ** The merge/delta law *)


Lemma ps2_class : __class__ Sample.ps2 = Sample.SamplePS.
Proof. vm_compute. reflexivity. Qed.









Lemma compact_omits_unset_witness :
  exists d,
    _to_yaml_form Sample.ps1 true = ret d
    /\ ("paramC" ∉ d.*1 <-> "paramC" ∉ _set Sample.ps1)
    /\ ("paramA" ∈ d.*1 <-> "paramA" ∈ _set Sample.ps1).
Proof.
  destruct (compact_omits_unset Sample.ps1) as (d & full & Hd & _ & H).
  exists d. split; [exact Hd|]. split.
  - apply (H "paramC"). rewrite ps1_class. apply (bool_decide_eq_true_1 _).
    vm_compute. reflexivity.
  - apply (H "paramA"). rewrite ps1_class. apply (bool_decide_eq_true_1 _).
    vm_compute. reflexivity.
Defined.

(** * Further properties of the code *)

(** ** The explicit set and the metadata stay within the schema *)

Lemma preserves_mret {A : Type} (P : ParameterSet -> Prop) (a : A) : preserves P (mret a).
Proof. intros s r s' [= _ <-] H. done. Qed.

Lemma preserves_mraise {A : Type} (P : ParameterSet -> Prop) (e : exn) :
  preserves P (@mraise A e).
Proof. intros s r s' [= _ <-] H. done. Qed.

Lemma preserves_lift {A : Type} (P : ParameterSet -> Prop) (x : result A) :
  preserves P (lift x).
Proof. intros s r s' [= _ <-] H. done. Qed.

Lemma preserves_read {A : Type} (P : ParameterSet -> Prop) (f : ParameterSet -> result A) :
  preserves P (read f).
Proof. intros s r s' [= _ <-] H. done. Qed.

Lemma preserves_modify (P : ParameterSet -> Prop) (f : ParameterSet -> ParameterSet) :
  (forall s, P s -> P (f s)) -> preserves P (modify f).
Proof. intros Hf s r s' [= _ <-] H. by apply Hf. Qed.

Lemma preserves_mbind {A B : Type} (P : ParameterSet -> Prop)
    (m : method A) (k : A -> method B) :
  preserves P m -> (forall a, preserves P (k a)) -> preserves P (mbind m k).
Proof.
  intros Hm Hk s r s' Hrun H. unfold mbind in Hrun.
  destruct (m s) as [[e|a] s1] eqn:E.
  - injection Hrun as _ <-. by apply (Hm _ _ _ E).
  - apply (Hk a _ _ _ Hrun). by apply (Hm _ _ _ E).
Qed.

Lemma preserves_for_each {A : Type} (P : ParameterSet -> Prop)
    (l : list A) (body : A -> method unit) :
  (forall x, x ∈ l -> preserves P (body x)) -> preserves P (for_each l body).
Proof.
  induction l as [|x l IH]; intros Hb; cbn [for_each].
  - apply preserves_mret.
  - apply preserves_mbind.
    + apply Hb, list_elem_of_here.
    + intros _. apply IH. intros y Hy. by apply Hb, list_elem_of_further.
Qed.

Lemma within_add (cls : class) (k : string) (s : ParameterSet) :
  k ∈ parameter_names cls -> within_schema cls s ->
  within_schema cls (with_set (fun t => t ∪ {[k]}) s).
Proof.
  intros Hk (Hc & Hs & Hm). repeat split; auto. cbn. intros f Hf.
  apply elem_of_union in Hf as [Hf|Hf]; [by apply Hs|].
  apply elem_of_singleton in Hf. by subst.
Qed.

Lemma within_remove (cls : class) (k : string) (s : ParameterSet) :
  within_schema cls s -> within_schema cls (with_set (fun t => t ∖ {[k]}) s).
Proof.
  intros (Hc & Hs & Hm). repeat split; auto. cbn. intros f Hf.
  apply elem_of_remove in Hf as [Hf _]. by apply Hs.
Qed.

Lemma within_meta (cls : class) (k : string) (m : yaml) (s : ParameterSet) :
  k ∈ parameter_names cls -> within_schema cls s ->
  within_schema cls (with_meta (insert k m) s).
Proof.
  intros Hk (Hc & Hs & Hm). repeat split; auto. cbn. intros f Hf.
  destruct (decide (k = f)) as [<-|Hne]; [done|].
  rewrite lookup_insert_ne in Hf by done. by apply Hm.
Qed.

Lemma within_object_setattr (cls : class) (name : string) (v : value) (s : ParameterSet) :
  within_schema cls s -> within_schema cls (object_setattr name v s).
Proof. intros H. unfold object_setattr. by case_bool_decide. Qed.

Lemma setattr_within (cls : class) (name : string) (v : value) :
  preserves (within_schema cls) (__setattr__ name v).
Proof.
  intros s r s' Hrun H. unfold __setattr__, mbind, read, modify, mraise, mret in Hrun.
  destruct (truthy (islocked s)) as [e|[|]]; cbn in Hrun.
  - by injection Hrun as _ <-.
  - by injection Hrun as _ <-.
  - rewrite object_setattr_class in Hrun.
    destruct (bool_decide_reflect (name ∈ parameter_names (__class__ s))) as [Hin|Hn];
      injection Hrun as _ <-.
    + apply within_add; [|by apply within_object_setattr].
      destruct H as (<- & _). done.
    + by apply within_object_setattr.
Qed.

Lemma setitem_within (cls : class) (key : string) (v : value) :
  preserves (within_schema cls) (__setitem__ key v).
Proof.
  unfold __setitem__. apply preserves_mbind; [apply preserves_read|].
  intros c. destruct (negb (bool_decide (key ∈ parameter_names c))).
  - apply preserves_mraise.
  - apply setattr_within.
Qed.

Lemma set_meta_within (cls : class) (name : string) (m : yaml) :
  preserves (within_schema cls) (set_meta name m).
Proof.
  intros s r s' Hrun H. unfold set_meta, mbind, read, modify, mraise in Hrun.
  destruct (truthy (islocked s)) as [e|[|]]; cbn in Hrun.
  - by injection Hrun as _ <-.
  - by injection Hrun as _ <-.
  - destruct (bool_decide_reflect (name ∈ parameter_names (__class__ s))) as [Hin|Hn];
      cbn in Hrun; injection Hrun as _ <-; [|done].
    assert (name ∈ parameter_names cls) as Hin' by (destruct H as (<- & _); done).
    by apply within_add, within_meta.
Qed.

Lemma keeps_of_preserves (P : ParameterSet -> Prop) (m : method unit) :
  preserves P m -> keeps P m.
Proof. intros H s s' Hrun. by apply (H s (ret tt) s'). Qed.

Lemma keeps_for_each {A : Type} (P : ParameterSet -> Prop)
    (l : list A) (body : A -> method unit) :
  (forall x, x ∈ l -> keeps P (body x)) -> keeps P (for_each l body).
Proof.
  induction l as [|x l IH]; intros Hb s s'; cbn [for_each].
  - intros [= <-]. done.
  - unfold mbind. destruct (body x s) as [[e|[]] s1] eqn:E; [discriminate|].
    intros Hrun Hs. apply (IH (fun y Hy => Hb y (list_elem_of_further _ _ _ Hy)) s1 s' Hrun).
    apply (Hb x (list_elem_of_here _ _) s s1 E Hs).
Qed.

Lemma init_item_within (cls : class) (kv : string * yaml) :
  keeps (within_schema cls) (init_item cls kv).
Proof.
  destruct kv as [k y].
  destruct (_field_data cls k) as [fld|] eqn:Hf.
  - destruct (decide (k ∈ parameter_names cls)) as [Hin|Hn].
    + apply keeps_of_preserves. unfold init_item. cbn [fst snd]. rewrite Hf.
      apply preserves_mbind.
      * destruct y as [sc|d]; [apply preserves_mret|].
        destruct (dict_get d (LStr "meta")); [|apply preserves_mret].
        destruct (dict_get d (LStr "value")); [|apply preserves_mret].
        apply preserves_mbind; [|intros _; apply preserves_mret].
        apply preserves_modify. intros s. by apply within_meta.
      * intros y'. apply preserves_mbind; [apply preserves_lift|].
        intros v. apply preserves_mbind; [apply setitem_within|].
        intros _. apply preserves_modify. intros s. by apply within_add.
    + intros s s' Hrun (Hc & _). exfalso.
      rewrite (init_item_pseudo cls k y fld s Hf Hn Hc) in Hrun. cbn zeta in Hrun.
      destruct (_initialize_value k (unwrap y).2 (fld_pdtype fld)); discriminate.
  - intros s s'. rewrite init_item_unknown by done. intros [= <-]. done.
Qed.

Lemma returned_within (cls : class) (m : method unit) (s c : ParameterSet) :
  keeps (within_schema cls) m -> within_schema cls s ->
  returned (m s) = ret c -> within_schema cls c.
Proof.
  intros Hm Hs. destruct (m s) as [[e|[]] s'] eqn:E; cbn; [discriminate|].
  intros [= <-]. by apply (Hm _ _ E).
Qed.

Lemma new_object_within (cls : class) : within_schema cls (new_object cls).
Proof.
  repeat split; cbn.
  - intros f Hf. by apply not_elem_of_empty in Hf.
  - intros f [x Hx]. by rewrite lookup_empty in Hx.
Qed.

Lemma init_within (cls : class) (data : list (string * yaml)) (c : ParameterSet) :
  __init__ cls data = ret c -> within_schema cls c.
Proof.
  unfold __init__. apply returned_within; [|apply new_object_within].
  apply keeps_for_each. intros kv _. apply init_item_within.
Qed.

Lemma merge_item_within (other : ParameterSet) (op : string) :
  preserves (within_schema (__class__ other)) (merge_item other op).
Proof.
  unfold merge_item. case_bool_decide; [|apply preserves_mret].
  apply preserves_mbind; [apply preserves_lift|].
  intros v. apply preserves_mbind; [apply setitem_within|].
  intros _. apply preserves_mbind; [apply preserves_lift|].
  intros m. apply set_meta_within.
Qed.

Lemma delta_item_within (cls : class) (base : ParameterSet) (p : string) :
  p ∈ parameter_names cls -> preserves (within_schema cls) (delta_item cls base p).
Proof.
  intros Hin.
  unfold delta_item. apply preserves_mbind; [apply preserves_lift|].
  intros bv. apply preserves_mbind; [apply preserves_read|].
  intros nv. destruct (value_eq bv nv true default_thresh).
  - apply preserves_modify. intros s. apply within_remove.
  - destruct (_field_data cls p) as [fld|] eqn:Hf; [|apply preserves_mraise].
    destruct (value_eq nv (fld_default fld) true default_thresh); [|apply preserves_mret].
    apply preserves_modify. intros s. by apply within_add.
Qed.

(** X1.  The invariant of the data model: the explicit set and the keys of
    the metadata are fields of the class.  A fresh object satisfies it;
    every setter keeps it, whether it returns or raises (an attribute set on
    a name the class uses itself apart); and for a class that runs the
    constructor of [ParameterSet], whatever the constructor, [copy],
    [merged_with] and [delta_from] return satisfies it for the class of the
    result. *)
Theorem explicit_set_within_schema (construct : constructors) :
  (forall cls, within_schema cls (new_object cls))
  /\ (forall cls name v, name ∉ reserved ->
        preserves (within_schema cls) (__setattr__ name v))
  /\ (forall cls key v, key ∉ reserved ->
        preserves (within_schema cls) (__setitem__ key v))
  /\ (forall cls name m, preserves (within_schema cls) (set_meta name m))
  /\ (forall cls, preserves (within_schema cls) lock)
  /\ (forall cls data c, wf_class cls -> inherits_init construct cls ->
        construct cls data = ret c -> within_schema cls c)
  /\ (forall ps c, wf_class (__class__ ps) -> inherits_init construct (__class__ ps) ->
        copy construct ps = ret c -> within_schema (__class__ ps) c)
  /\ (forall self other c,
        wf_class (__class__ other) -> inherits_init construct (__class__ other) ->
        merged_with construct self other = ret c -> within_schema (__class__ other) c)
  /\ (forall self base c,
        wf_class (__class__ self) -> inherits_init construct (__class__ self) ->
        delta_from construct self base = ret c -> within_schema (__class__ self) c).
Proof.
  split; [apply new_object_within|]. split; [intros cls name v _; apply setattr_within|].
  split; [intros cls key v _; apply setitem_within|]. split; [apply set_meta_within|].
  split; [intros cls; apply setattr_within|].
  split; [intros cls data c _ ->; apply init_within|].
  split; [|split].
  - intros ps c _ Hinh. unfold copy, bind.
    destruct (_to_yaml_form ps true) as [e|d]; [discriminate|].
    rewrite Hinh. apply init_within.
  - intros self other c _ Hinh. rewrite merged_with_unfold. unfold bind.
    destruct (_to_yaml_form self true) as [e|d]; [discriminate|].
    rewrite Hinh.
    destruct (__init__ (__class__ other) d) as [e|n] eqn:Hn; [discriminate|].
    apply returned_within; [|by apply (init_within _ d)].
    apply keeps_of_preserves, preserves_for_each. intros op _. apply merge_item_within.
  - intros self base c _ Hinh. rewrite delta_from_unfold. unfold bind.
    destruct (copy construct self) as [e|n] eqn:Hn; [discriminate|].
    apply returned_within.
    + apply keeps_of_preserves, preserves_for_each. intros p Hp.
      by apply delta_item_within.
    + unfold copy, bind in Hn.
      destruct (_to_yaml_form self true) as [e|d]; [discriminate|].
      rewrite Hinh in Hn. by apply (init_within _ d).
Qed.

Lemma explicit_set_within_schema_witness :
  within_schema Sample.SamplePS Sample.ps1
  /\ within_schema Sample.SamplePS Sample.delta21_ps.
Proof.
  destruct (explicit_set_within_schema Sample.construct)
    as (_ & _ & _ & _ & _ & Hinit & _ & _ & Hdelta).
  split.
  - apply (Hinit Sample.SamplePS Sample.data1); [exact SamplePS_wf | exact SamplePS_inherits|].
    vm_compute. reflexivity.
  - apply (Hdelta Sample.ps2 Sample.ps1 Sample.delta21_ps).
    + rewrite ps2_class. exact SamplePS_wf.
    + rewrite ps2_class. exact SamplePS_inherits.
    + vm_compute. reflexivity.
Defined.

(** ** Construction *)

Lemma for_each_known (cls : class) (data : list (string * yaml)) (s : ParameterSet) :
  for_each data (init_item cls) s
  = for_each (List.filter (fun kv => bool_decide (is_Some (_field_data cls kv.1))) data)
             (init_item cls) s.
Proof.
  revert s. induction data as [|[k y] data IH]; intros s; [done|].
  cbn [List.filter fst].
  destruct (bool_decide_reflect (is_Some (_field_data cls k))) as [Hin|Hn].
  - cbn [for_each]. unfold mbind.
    destruct (init_item cls (k, y) s) as [[e|[]] s1]; [done | apply IH].
  - cbn [for_each]. unfold mbind at 1.
    rewrite init_item_unknown; [apply IH|].
    destruct (_field_data cls k); [|done]. exfalso. by apply Hn.
Qed.

(** X2.  Keys of the data that [__dataclass_fields__] does not know leave no
    trace: for a class that runs the constructor of [ParameterSet], the
    constructor gives the same outcome, the same object or the same
    exception, as on the data without them. *)
Theorem init_ignores_unknown_keys (construct : constructors) (cls : class)
    (data : list (string * yaml)) :
  wf_class cls -> inherits_init construct cls ->
  construct cls data
  = construct cls
      (List.filter (fun kv => bool_decide (is_Some (_field_data cls kv.1))) data).
Proof. intros _ Hinh. rewrite !Hinh. unfold __init__. by rewrite for_each_known. Qed.

Lemma init_ignores_unknown_keys_witness :
  Sample.construct Sample.SamplePS [("noSuchParam", YScalar (SInt 1))]
  = Sample.construct Sample.SamplePS [].
Proof.
  apply (init_ignores_unknown_keys Sample.construct Sample.SamplePS
           [("noSuchParam", YScalar (SInt 1))] SamplePS_wf SamplePS_inherits).
Defined.










(** ** Setting and reading back *)

(** X5.  On an unlocked object, setting a field and reading it back gives
    the value set; the field joins the explicit set; every other attribute
    read, the metadata and the lock are as before. *)
Theorem setitem_then_getitem (ps : ParameterSet) (f : string) (v : value) :
  truthy (islocked ps) = ret false ->
  f ∈ parameter_names (__class__ ps) -> f <> "_locked" ->
  exists ps',
    __setitem__ f v ps = (ret tt, ps')
    /\ __getitem__ ps' f = ret v
    /\ (forall g, g ∈ _set ps' <-> g ∈ _set ps \/ g = f)
    /\ (forall g, g <> f -> __getitem__ ps' g = __getitem__ ps g
                            /\ getattr ps' g = getattr ps g)
    /\ (forall g, meta ps' g = meta ps g)
    /\ islocked ps' = islocked ps.
Proof.
  intros Hl Hin Hne. rewrite (setitem_field ps f v Hin), (setattr_unlocked _ _ _ Hl).
  rewrite object_setattr_class, bool_decide_eq_true_2 by done.
  unfold object_setattr. rewrite bool_decide_eq_false_2 by done.
  eexists. split; [reflexivity|].
  assert (forall g, getattr (with_set (fun s => s ∪ {[f]}) (with_dict <[f:=v]> ps)) g
                    = if decide (g = f) then ret v else getattr ps g) as Hg.
  { intros g. unfold getattr. cbn. destruct (bool_decide_reflect (g = "_locked")) as [->|Hgl].
    - destruct (decide ("_locked" = f)); [congruence|done].
    - destruct (decide (g = f)) as [->|Hgf].
      + by rewrite lookup_insert_eq.
      + by rewrite lookup_insert_ne. }
  split; [|split; [|split; [|split]]].
  - unfold __getitem__. cbn. rewrite bool_decide_eq_true_2 by done. cbn.
    rewrite Hg. by destruct (decide (f = f)).
  - intros g. cbn. rewrite elem_of_union, elem_of_singleton. tauto.
  - intros g Hgf. split.
    + unfold __getitem__. cbn. rewrite Hg. by destruct (decide (g = f)).
    + rewrite Hg. by destruct (decide (g = f)).
  - intros g. reflexivity.
  - reflexivity.
Qed.

Lemma setitem_then_getitem_witness :
  exists ps',
    __setitem__ "paramA" (VScalar (SInt 15)) Sample.ps1 = (ret tt, ps')
    /\ __getitem__ ps' "paramA" = ret (VScalar (SInt 15)).
Proof.
  destruct (setitem_then_getitem Sample.ps1 "paramA" (VScalar (SInt 15)))
    as (ps' & H1 & H2 & _).
  - vm_compute. reflexivity.
  - rewrite ps1_class. apply (bool_decide_eq_true_1 _). vm_compute. reflexivity.
  - discriminate.
  - exists ps'. split; [exact H1 | exact H2].
Defined.

(** X6.  On an unlocked object, [set_meta] of a field followed by [meta]
    gives the text set, also in [all_meta]; the field joins the explicit
    set although no value was set; the values and the metadata of the other
    fields are as before. *)
Theorem set_meta_then_meta (ps : ParameterSet) (f : string) (m : yaml) :
  truthy (islocked ps) = ret false -> f ∈ parameter_names (__class__ ps) ->
  exists ps',
    set_meta f m ps = (ret tt, ps')
    /\ meta ps' f = ret m /\ all_meta ps' !! f = Some m
    /\ (forall g, g ∈ _set ps' <-> g ∈ _set ps \/ g = f)
    /\ (forall g, g <> f -> meta ps' g = meta ps g)
    /\ (forall g, __getitem__ ps' g = __getitem__ ps g)
    /\ islocked ps' = islocked ps.
Proof.
  intros Hl Hin. rewrite (set_meta_unlocked f m ps Hl Hin).
  eexists. split; [reflexivity|]. split; [|split; [|split; [|split; [|split]]]].
  - unfold meta. cbn. rewrite bool_decide_eq_true_2 by done. cbn.
    by rewrite lookup_insert_eq.
  - unfold all_meta. cbn. by rewrite lookup_insert_eq.
  - intros g. cbn. rewrite elem_of_union, elem_of_singleton. tauto.
  - intros g Hgf. unfold meta. cbn. by rewrite lookup_insert_ne.
  - intros g. reflexivity.
  - reflexivity.
Qed.

Lemma set_meta_then_meta_witness :
  exists ps',
    set_meta "paramC" (YScalar (SStr "let's make this exciting...")) Sample.ps1 = (ret tt, ps')
    /\ meta ps' "paramC" = ret (YScalar (SStr "let's make this exciting..."))
    /\ ("paramC" ∈ _set ps' <-> "paramC" ∈ _set Sample.ps1 \/ "paramC" = "paramC").
Proof.
  destruct (set_meta_then_meta Sample.ps1 "paramC"
              (YScalar (SStr "let's make this exciting...")))
    as (ps' & H1 & H2 & _ & H4 & _).
  - vm_compute. reflexivity.
  - rewrite ps1_class. apply (bool_decide_eq_true_1 _). vm_compute. reflexivity.
  - exists ps'. split; [exact H1|]. split; [exact H2 | exact (H4 "paramC")].
Defined.

(** ** The two serialized forms *)

Lemma filter_map_keys {A : Type} (p : string -> bool) (g : string -> A) (l : list string) :
  List.filter (fun kv : string * A => p kv.1) (List.map (fun f => (f, g f)) l)
  = List.map (fun f => (f, g f)) (List.filter p l).
Proof.
  induction l as [|x l IH]; cbn; [done|]. destruct (p x); cbn; by rewrite IH.
Qed.

(** X7.  For a class with distinct field names both forms are returned; the
    full form has one entry per field, in the order of [parameter_names],
    and the compact form is the full form without the entries of fields
    outside the explicit set, the entries kept being the same. *)
Theorem compact_form_is_filtered_full_form (ps : ParameterSet) :
  NoDup (parameter_names (__class__ ps)) ->
  exists d full,
    _to_yaml_form ps true = ret d
    /\ _to_yaml_form ps false = ret full
    /\ full.*1 = parameter_names (__class__ ps)
    /\ d = List.filter (fun kv => bool_decide (kv.1 ∈ _set ps)) full.
Proof.
  intros Hnd. exists (yaml_form_of ps true), (yaml_form_of ps false).
  rewrite !to_yaml_form_spec by done. split; [done|]. split; [done|].
  assert (forall l : list string, List.filter (fun _ => true) l = l) as Htrue.
  { intros l. induction l as [|x l IH]; cbn; [done|]. by rewrite IH. }
  split.
  - rewrite yaml_form_keys.
    rewrite (filter_ext (included ps false) (fun _ => true)) by done. apply Htrue.
  - unfold yaml_form_of.
    rewrite (filter_ext (included ps false) (fun _ => true)) by done. rewrite Htrue.
    symmetry. etransitivity;
      [exact (filter_map_keys (fun f => bool_decide (f ∈ _set ps)) (entry_of ps) _)|].
    f_equal. apply filter_ext. intros f. unfold included. cbn.
    by destruct (bool_decide (f ∈ _set ps)).
Qed.

Lemma compact_form_is_filtered_full_form_witness :
  exists d full,
    _to_yaml_form Sample.ps1 true = ret d
    /\ _to_yaml_form Sample.ps1 false = ret full
    /\ full.*1 = parameter_names (__class__ Sample.ps1)
    /\ d = List.filter (fun kv => bool_decide (kv.1 ∈ _set Sample.ps1)) full.
Proof.
  apply compact_form_is_filtered_full_form. rewrite ps1_class. apply SamplePS_wf.
Defined.

(** ** What [merged_with] returns *)



(** ** What [delta_from] returns *)








(** ** Serialization round trip *)



(** ** Failed updates *)

(** X12.  An update that raises has changed nothing: for a name the class
    does not use itself, [__setattr__], [__setitem__], [set_meta] and [lock]
    raise before they touch the object. *)
Theorem setters_atomic (name : string) (v : value) (y : yaml) :
  name ∉ reserved ->
  atomic (__setattr__ name v) /\ atomic (__setitem__ name v)
  /\ atomic (set_meta name y) /\ atomic lock.
Proof.
  intros _.
  assert (forall n w, atomic (__setattr__ n w)) as Hset.
  { intros n w ps ps' e. unfold __setattr__, mbind, read, modify, mraise, mret.
    destruct (truthy (islocked ps)) as [e'|[|]]; cbn.
    - intros [= _ <-]. done.
    - intros [= _ <-]. done.
    - case_bool_decide; discriminate. }
  split; [apply Hset|]. split; [|split; [|apply Hset]].
  - intros ps ps' e. unfold __setitem__, mbind, read, mraise. cbn.
    case_bool_decide; cbn.
    + apply Hset.
    + intros [= _ <-]. done.
  - intros ps ps' e. unfold set_meta, mbind, read, modify, mraise.
    destruct (truthy (islocked ps)) as [e'|[|]]; cbn.
    + intros [= _ <-]. done.
    + intros [= _ <-]. done.
    + case_bool_decide; cbn; [discriminate|]. intros [= _ <-]. done.
Qed.

Lemma setters_atomic_witness :
  (__setitem__ "paramA" (VScalar (SInt 1)) Sample.locked_ps).2 = Sample.locked_ps.
Proof.
  assert ("paramA" ∉ reserved) as Hn
    by (apply (bool_decide_eq_false_1 _); vm_compute; reflexivity).
  apply (proj1 (proj2 (setters_atomic "paramA" (VScalar (SInt 1)) (YScalar SNone) Hn))
           Sample.locked_ps _ (AttributeError Cannot_set_locked)).
  vm_compute. reflexivity.
Defined.

(** ** Rounding *)

Lemma round_away_magnitude (x : Q) :
  exists m : Z,
    round_away x = (if Qsign_neg x then - m else m)
    /\ (0 <= m)%Z
    /\ (Qabs x - (1 # 2) <= inject_Z m)%Q
    /\ (inject_Z m <= Qabs x + (1 # 2))%Q
    /\ (inject_Z m == Qabs x - (1 # 2) -> False)%Q.
Proof.
  unfold round_away.
  pose proof (Qfloor_le (Qabs x)) as H1. pose proof (Qlt_floor (Qabs x)) as H2.
  pose proof (Qabs_nonneg x) as H0.
  assert (0 <= Qfloor (Qabs x))%Z as Hf.
  { change 0%Z with (Qfloor 0). apply Qfloor_resp_le. exact H0. }
  rewrite inject_Z_plus in H2. change (inject_Z 1) with 1%Q in H2.
  destruct (Qle_bool (1 # 2) (Qabs x - inject_Z (Qfloor (Qabs x)))) eqn:E.
  - apply Qle_bool_iff in E. exists (Qfloor (Qabs x) + 1). split; [done|].
    split; [lia|]. rewrite inject_Z_plus. change (inject_Z 1) with 1%Q.
    revert H1 H2 E. generalize (inject_Z (Qfloor (Qabs x))) (Qabs x). intros n a H1 H2 E.
    split; [lra|]. split; [lra|]. intros H. lra.
  - assert (~ (1 # 2 <= Qabs x - inject_Z (Qfloor (Qabs x)))%Q) as E'.
    { intros H. apply Qle_bool_iff in H. congruence. }
    exists (Qfloor (Qabs x)). split; [done|]. split; [done|].
    revert H1 H2 E'. generalize (inject_Z (Qfloor (Qabs x))) (Qabs x). intros n a H1 H2 E'.
    split; [lra|]. split; [lra|]. intros H. lra.
Qed.

(** X13.  [round_away x] is an integer nearest to [x]: it is within one
    half of [x], and when it is exactly one half away it is the one of the
    two nearest integers that is farther from zero. *)
Theorem round_away_nearest (x : Q) :
  (Qabs (inject_Z (round_away x) - x) <= 1 # 2)%Q
  /\ ((Qabs (inject_Z (round_away x) - x) == 1 # 2)%Q ->
      (Qabs x < Qabs (inject_Z (round_away x)))%Q).
Proof.
  destruct (round_away_magnitude x) as (m & -> & Hm & Hlo & Hhi & Hne).
  assert (0 <= inject_Z m)%Q as Hm'.
  { change 0%Q with (inject_Z 0). by rewrite <- Zle_Qle. }
  unfold Qsign_neg. destruct (Qle_bool 0 x) eqn:E; cbn [negb].
  - apply Qle_bool_iff in E. rewrite (Qabs_pos x E) in Hlo, Hhi, Hne.
    rewrite (Qabs_pos x E), (Qabs_pos _ Hm').
    split.
    + apply Qabs_case; intros; lra.
    + apply Qabs_case; intros H1 H2; lra.
  - assert (x < 0)%Q as E'.
    { apply Qnot_le_lt. intros H. apply Qle_bool_iff in H. congruence. }
    assert (x <= 0)%Q as E'' by lra.
    rewrite (Qabs_neg x E'') in Hlo, Hhi, Hne.
    rewrite inject_Z_opp, (Qabs_neg x E'').
    assert (- inject_Z m <= 0)%Q as Hm'' by lra.
    rewrite (Qabs_neg _ Hm'').
    split.
    + apply Qabs_case; intros; lra.
    + apply Qabs_case; intros H1 H2; lra.
Qed.

Lemma round_away_zero (x : Q) : (x == 0)%Q -> round_away x = 0.
Proof.
  intros Hx. destruct (round_away_magnitude x) as (m & -> & Hm & Hlo & Hhi & _).
  assert (Qabs x == 0)%Q as Ha by (rewrite Hx; reflexivity).
  rewrite Ha in Hhi.
  assert (inject_Z m < inject_Z 1)%Q as Hlt by (change (inject_Z 1) with 1%Q; lra).
  rewrite <- Zlt_Qlt in Hlt. assert (m = 0) as -> by lia. by destruct (Qsign_neg x).
Qed.

(** X14.  [round_away] is odd: [round_away (- x) = - round_away x]. *)
Theorem round_away_odd (x : Q) : round_away (- x) = - round_away x.
Proof.
  destruct x as [[|p|p] d].
  - rewrite !round_away_zero; reflexivity.
  - unfold round_away, Qsign_neg.
    change (- (Z.pos p # d))%Q with (Z.neg p # d)%Q.
    change (Qabs (Z.neg p # d)) with (Z.pos p # d)%Q.
    change (Qabs (Z.pos p # d)) with (Z.pos p # d)%Q.
    change (Qle_bool 0 (Z.neg p # d)) with false.
    change (Qle_bool 0 (Z.pos p # d)) with true.
    reflexivity.
  - unfold round_away, Qsign_neg.
    change (- (Z.neg p # d))%Q with (Z.pos p # d)%Q.
    change (Qabs (Z.neg p # d)) with (Z.pos p # d)%Q.
    change (Qabs (Z.pos p # d)) with (Z.pos p # d)%Q.
    change (Qle_bool 0 (Z.neg p # d)) with false.
    change (Qle_bool 0 (Z.pos p # d)) with true.
    cbn [negb]. by rewrite Z.opp_involutive.
Qed.

(** ** More on [value_eq] *)

Lemma approx_eq_text (s : string) (w : scalar) (abs_tol rel_tol : Q) (nan_ok : bool) :
  (approx_eq (SStr s) w abs_tol rel_tol nan_ok = true <-> w = SStr s)
  /\ (approx_eq w (SStr s) abs_tol rel_tol nan_ok = true <-> w = SStr s).
Proof.
  destruct w as [|b|z|[|sg|q]|t]; unfold approx_eq; cbn;
    try (split; split; intros; discriminate).
  case_bool_decide as Ht.
  - subst t. rewrite (bool_decide_eq_true_2 (s = s)) by done. done.
  - rewrite (bool_decide_eq_false_2 (t = s)) by congruence.
    split; split; intros H; try discriminate; injection H as ->; done.
Qed.

(** X15.  A non-empty text is [value_eq] to the same text and to no other
    scalar, in either argument position and whatever [all_zero] is: text
    is never taken for a number, and only the empty text is like zero. *)
Theorem text_equals_only_itself (s : string) (y : scalar) (all_zero : bool) (thresh : Q) :
  s <> "" ->
  (value_eq (VScalar (SStr s)) (VScalar y) all_zero thresh = true <-> y = SStr s)
  /\ (value_eq (VScalar y) (VScalar (SStr s)) all_zero thresh = true <-> y = SStr s).
Proof.
  intros Hs. rewrite !value_eq_scalar.
  assert (pseudo_zero (SStr s) = false) as Hz.
  { unfold pseudo_zero, pseudo_nan. cbn. by rewrite bool_decide_eq_false_2. }
  destruct (is_str y) eqn:Hy.
  - destruct y as [| | | |t]; try discriminate.
    unfold value_eq_simple. cbn [is_str andb]. rewrite !py_eq_str, !bool_decide_eq_true.
    split; split; intros H; congruence.
  - unfold value_eq_simple. rewrite Hy, andb_false_r, Hz. cbn [is_str andb].
    rewrite andb_false_r. cbn [is_None andb orb].
    set (w := if all_zero && pseudo_zero y then SFloat (fin 0%Q) else y).
    assert (w <> SStr s) as Hw.
    { unfold w. destruct (all_zero && pseudo_zero y); [discriminate|].
      intros ->. discriminate. }
    assert (y <> SStr s) as Hy' by (intros ->; discriminate).
    destruct (approx_eq_text s w thresh (1 # 1000000)%Q true) as [H1 H2].
    split.
    + rewrite H1. tauto.
    + rewrite andb_false_r. cbn [orb]. rewrite H2. tauto.
Qed.

Lemma text_equals_only_itself_witness :
  value_eq (VScalar (SStr "a")) (VScalar (SInt 0)) true default_thresh = true
  <-> SInt 0 = SStr "a".
Proof.
  apply (proj1 (text_equals_only_itself "a" (SInt 0) true default_thresh
                  ltac:(discriminate))).
Defined.

(** X16.  With [all_zero] off the kinds of "nothing" are kept apart:
    [None] is [value_eq] to [None] only, and not-a-number to not-a-number
    only, in either argument position. *)
Theorem strict_None_and_nan (y : scalar) (thresh : Q) :
  value_eq (VScalar SNone) (VScalar y) false thresh = is_None y
  /\ value_eq (VScalar y) (VScalar SNone) false thresh = is_None y
  /\ value_eq (VScalar (SFloat nan)) (VScalar y) false thresh
     = match y with SFloat f => isnan f | _ => false end
  /\ value_eq (VScalar y) (VScalar (SFloat nan)) false thresh
     = match y with SFloat f => isnan f | _ => false end.
Proof.
  rewrite !value_eq_scalar. unfold value_eq_simple, approx_eq.
  destruct y as [|[|]|z|[|sg|q]|t]; cbn; done.
Qed.

(** X18.  Every scalar and every frame is [value_eq] to itself, for either
    setting of [all_zero] and any [thresh]; not-a-number and frames that
    hold it included. *)
Theorem value_eq_reflexive (v : value) (all_zero : bool) (thresh : Q) :
  (forall d, v <> VDict d) -> value_eq v v all_zero thresh = true.
Proof. apply value_eq_refl. Qed.

Lemma value_eq_reflexive_witness :
  value_eq (VScalar (SFloat nan)) (VScalar (SFloat nan)) false default_thresh = true.
Proof. apply value_eq_reflexive. intros d. discriminate. Defined.

(** ** The summary statistics and missing data *)

Lemma filter_nans_skip (l1 l2 : list scalar) (x : scalar) :
  pseudo_nan x = true -> filter_nans (l1 ++ x :: l2) = filter_nans (l1 ++ l2).
Proof.
  intros Hx. unfold filter_nans. rewrite !List.filter_app. cbn [List.filter].
  by rewrite Hx.
Qed.

Lemma filter_nans_all (vs : list scalar) :
  forallb pseudo_nan vs = true -> filter_nans vs = [].
Proof.
  induction vs as [|x vs IH]; [done|]. cbn [forallb]. intros H.
  apply andb_true_iff in H as [Hx H]. unfold filter_nans. cbn [List.filter].
  rewrite Hx. cbn [negb]. by apply IH.
Qed.

Section MissingData.

Variable min_value max_value : list scalar -> result scalar.
Variable mean_value median_value pvariance_value stdev_value : list scalar -> result pyfloat.
Variable quartiles : list scalar -> result (pyfloat * pyfloat * pyfloat).

(** X19.  The summary statistics do not see missing data: an entry that is
    [None], the empty text or not-a-number, wherever it stands in the
    sequence, changes the outcome of none of them, be it a value or an
    exception. *)
Theorem statistics_ignore_pseudo_nan (l1 l2 : list scalar) (x : scalar) (n : Z)
    (minzero : bool) :
  pseudo_nan x = true ->
  smin min_value (l1 ++ x :: l2) = smin min_value (l1 ++ l2)
  /\ smax max_value (l1 ++ x :: l2) = smax max_value (l1 ++ l2)
  /\ smean mean_value (l1 ++ x :: l2) = smean mean_value (l1 ++ l2)
  /\ smedian median_value (l1 ++ x :: l2) = smedian median_value (l1 ++ l2)
  /\ s25_ile quartiles (l1 ++ x :: l2) = s25_ile quartiles (l1 ++ l2)
  /\ s75_ile quartiles (l1 ++ x :: l2) = s75_ile quartiles (l1 ++ l2)
  /\ spvar pvariance_value (l1 ++ x :: l2) = spvar pvariance_value (l1 ++ l2)
  /\ ssdev stdev_value (l1 ++ x :: l2) = ssdev stdev_value (l1 ++ l2)
  /\ slow_dev mean_value stdev_value (l1 ++ x :: l2) n minzero
     = slow_dev mean_value stdev_value (l1 ++ l2) n minzero
  /\ shi_dev mean_value stdev_value (l1 ++ x :: l2) n
     = shi_dev mean_value stdev_value (l1 ++ l2) n.
Proof.
  intros Hx. pose proof (filter_nans_skip l1 l2 x Hx) as H.
  unfold smin, smax, smean, smedian, s25_ile, s75_ile, spvar, ssdev, slow_dev, shi_dev.
  rewrite H. repeat (split; [reflexivity|]). reflexivity.
Qed.

(** X20.  When every entry is missing (the empty sequence included), the
    statistics [smin], [smax], [smean], [smedian], [spvar], [ssdev],
    [s25_ile], [s75_ile] and [slow_dev] return not-a-number and do not
    raise; the two percentiles already do so when fewer than three entries
    are left. *)
Theorem statistics_nan_when_nothing_left (vs : list scalar) (n : Z) (minzero : bool) :
  (forallb pseudo_nan vs = true ->
   smin min_value vs = ret (SFloat nan)
   /\ smax max_value vs = ret (SFloat nan)
   /\ smean mean_value vs = ret (SFloat nan)
   /\ smedian median_value vs = ret (SFloat nan)
   /\ spvar pvariance_value vs = ret (SFloat nan)
   /\ ssdev stdev_value vs = ret (SFloat nan)
   /\ slow_dev mean_value stdev_value vs n minzero = ret (SFloat nan))
  /\ ((length (filter_nans vs) <= 2)%nat ->
      s25_ile quartiles vs = ret (SFloat nan) /\ s75_ile quartiles vs = ret (SFloat nan)).
Proof.
  split.
  - intros H. apply filter_nans_all in H.
    unfold smin, smax, smean, smedian, spvar, ssdev, slow_dev. rewrite H.
    repeat (split; [reflexivity|]). reflexivity.
  - apply percentiles_nan_below_three.
Qed.

(** X21.  With exactly one entry left after the missing ones are dropped,
    the statistics that need a standard deviation raise instead of
    returning: [ssdev] raises [StatisticsError], and so do [slow_dev] and
    [shi_dev] unless the mean has already raised. *)
Theorem one_sample_raises (vs : list scalar) (n : Z) (minzero : bool) :
  length (filter_nans vs) = 1%nat ->
  ssdev stdev_value vs = raise StatisticsError
  /\ (exists e, slow_dev mean_value stdev_value vs n minzero = raise e
                /\ (forall m, mean_value (filter_nans vs) = ret m -> e = StatisticsError))
  /\ (exists e, shi_dev mean_value stdev_value vs n = raise e
                /\ (forall m, mean_value (filter_nans vs) = ret m -> e = StatisticsError)).
Proof.
  intros H. unfold ssdev, slow_dev, shi_dev, statistics_stdev, statistics_mean.
  rewrite H. cbn [Nat.ltb Nat.leb bind raise].
  destruct (filter_nans vs) as [|y l] eqn:E; [discriminate|].
  split; [reflexivity|].
  destruct (mean_value (y :: l)) as [e|m] eqn:Em; cbn.
  - split; exists e; (split; [reflexivity | intros m; discriminate]).
  - split; exists StatisticsError; (split; [reflexivity | done]).
Qed.

End MissingData.

Lemma statistics_ignore_pseudo_nan_witness :
  smean (fun _ => ret (fin 1%Q)) ([SFloat (fin 1%Q)] ++ SNone :: [])
  = smean (fun _ => ret (fin 1%Q)) ([SFloat (fin 1%Q)] ++ []).
Proof.
  pose (f := fun _ : list scalar => ret (fin 1%Q) : result pyfloat).
  pose (g := fun _ : list scalar => ret SNone : result scalar).
  pose (h := fun _ : list scalar => ret (nan, nan, nan) : result (pyfloat * pyfloat * pyfloat)).
  apply (statistics_ignore_pseudo_nan g g f f f f h [SFloat (fin 1%Q)] [] SNone 1 false).
  reflexivity.
Defined.

Lemma statistics_nan_when_nothing_left_witness :
  smean (fun _ => ret (fin 1%Q)) [SNone; SStr ""; SFloat nan] = ret (SFloat nan).
Proof.
  pose (f := fun _ : list scalar => ret (fin 1%Q) : result pyfloat).
  pose (g := fun _ : list scalar => ret SNone : result scalar).
  pose (h := fun _ : list scalar => ret (nan, nan, nan) : result (pyfloat * pyfloat * pyfloat)).
  apply (proj1 (statistics_nan_when_nothing_left g g f f f f h
                  [SNone; SStr ""; SFloat nan] 1 false)).
  reflexivity.
Defined.

Lemma one_sample_raises_witness :
  ssdev (fun _ => ret (fin 1%Q)) [SNone; SFloat (fin 2%Q)] = raise StatisticsError.
Proof.
  pose (f := fun _ : list scalar => ret (fin 1%Q) : result pyfloat).
  apply (one_sample_raises f f [SNone; SFloat (fin 2%Q)] 1 false).
  reflexivity.
Defined.

(** ** Empty columns of a frame *)

Lemma dict_get_map_key {A : Type} (g : label -> A) (cols : list label) (col : label) :
  dict_get (List.map (fun c => (c, g c)) cols) col
  = if bool_decide (col ∈ cols) then Some (g col) else None.
Proof.
  induction cols as [|c cols IH]; [done|]. cbn [List.map dict_get].
  destruct (decide (c = col)) as [->|Hne].
  - by rewrite bool_decide_eq_true_2 by apply list_elem_of_here.
  - rewrite IH. case_bool_decide as H.
    + by rewrite bool_decide_eq_true_2 by (by apply list_elem_of_further).
    + rewrite bool_decide_eq_false_2; [done|].
      intros Hin. apply elem_of_cons in Hin as [->|Hin]; done.
Qed.

Lemma dict_get_elem {A : Type} (d : list (label * A)) (col : label) :
  col ∈ d.*1 <-> exists a, dict_get d col = Some a.
Proof.
  induction d as [|[k a] d IH]; cbn.
  - split; [intros H; by apply elem_of_nil in H | intros [a H]; discriminate].
  - destruct (decide (k = col)) as [->|Hne].
    + split; [intros _; by exists a | intros _; apply list_elem_of_here].
    + rewrite elem_of_cons, IH. split; [intros [->|H]; done | intros H; by right].
Qed.

Lemma reindex_columns_columns (df : DataFrame) (cols : list label) :
  df_columns (reindex_columns df cols) = cols.
Proof.
  unfold df_columns, reindex_columns. cbn. rewrite <- list_fmap_compose.
  induction cols as [|c cols IH]; [done|]. cbn. by rewrite IH.
Qed.

Lemma reindex_columns_getitem (df : DataFrame) (cols : list label) (col : label) :
  df_getitem (reindex_columns df cols) col
  = if bool_decide (col ∈ cols)
    then match dict_get (df_data df) col with
         | Some xs => xs
         | None => List.map (fun _ => SFloat nan) (df_index df)
         end
    else [].
Proof.
  unfold df_getitem, reindex_columns. cbn [df_data].
  rewrite (dict_get_map_key
             (fun c => match dict_get (df_data df) c with
                       | Some xs => xs
                       | None => List.map (fun _ => SFloat nan) (df_index df)
                       end)).
  by case_bool_decide.
Qed.

Lemma reindex_present_getitem (df : DataFrame) (cols : list label) (col : label) :
  col ∈ cols -> col ∈ df_columns df ->
  df_getitem (reindex_columns df cols) col = df_getitem df col.
Proof.
  intros Hc Hd. rewrite reindex_columns_getitem, bool_decide_eq_true_2 by done.
  apply dict_get_elem in Hd as [xs Hxs]. unfold df_getitem. by rewrite Hxs.
Qed.

Lemma filter_sublist {A : Type} (f : A -> bool) (l : list A) :
  sublist (List.filter f l) l.
Proof.
  induction l as [|x l IH]; cbn; [constructor|].
  destruct (f x); [by apply sublist_skip | by apply sublist_cons].
Qed.

Lemma elem_of_List_filter {A : Type} (f : A -> bool) (l : list A) (x : A) :
  x ∈ List.filter f l <-> x ∈ l /\ f x = true.
Proof. rewrite !list_elem_of_In. apply List.filter_In. Qed.

Lemma filter_all {A : Type} (f : A -> bool) (l : list A) :
  (forall x, x ∈ l -> f x = true) -> List.filter f l = l.
Proof.
  induction l as [|x l IH]; intros H; [done|]. cbn.
  rewrite (H x) by apply list_elem_of_here. f_equal.
  apply IH. intros y Hy. by apply H, list_elem_of_further.
Qed.

Lemma has_value_spec (xs : list scalar) :
  negb (forallb pseudo_zero xs) = true <-> exists x, x ∈ xs /\ pseudo_zero x = false.
Proof.
  rewrite negb_true_iff. induction xs as [|x xs IH]; cbn.
  - split; [discriminate | intros (x & Hx & _); by apply elem_of_nil in Hx].
  - rewrite andb_false_iff, IH. split.
    + intros [H | (y & Hy & Hz)].
      * exists x. split; [apply list_elem_of_here | done].
      * exists y. split; [by apply list_elem_of_further | done].
    + intros (y & Hy & Hz). apply elem_of_cons in Hy as [->|Hy]; [by left|].
      right. by exists y.
Qed.

Lemma value_eq_nan_pseudo_zero (x : scalar) (thresh : Q) :
  pseudo_zero x = true -> value_eq_simple (SFloat nan) x true thresh = true.
Proof.
  intros Hx. unfold value_eq_simple. cbn [is_str andb]. rewrite Hx. reflexivity.
Qed.

(** X22.  [df_drop_empty_columns], on a frame with distinct column labels:
    the index is kept; the columns that remain are, in their original
    order, the columns named in [keep] and those with a cell that is not
    like zero; and the columns that remain hold the cells they held. *)
Theorem drop_empty_columns_spec (df : DataFrame) (keep : list label) :
  NoDup (df_columns df) ->
  df_index (df_drop_empty_columns df keep) = df_index df
  /\ sublist (df_columns (df_drop_empty_columns df keep)) (df_columns df)
  /\ (forall col,
        col ∈ df_columns (df_drop_empty_columns df keep)
        <-> col ∈ df_columns df
            /\ (col ∈ keep \/ exists x, x ∈ df_getitem df col /\ pseudo_zero x = false))
  /\ (forall col, col ∈ df_columns (df_drop_empty_columns df keep) ->
                  df_getitem (df_drop_empty_columns df keep) col = df_getitem df col).
Proof.
  intros _. unfold df_drop_empty_columns.
  split; [done|]. rewrite reindex_columns_columns.
  split; [apply filter_sublist|]. split.
  - intros col. rewrite elem_of_List_filter, orb_true_iff, bool_decide_eq_true.
    by rewrite has_value_spec.
  - intros col Hcol. apply reindex_present_getitem; [done|].
    by apply elem_of_List_filter in Hcol as [? _].
Qed.

Lemma drop_empty_columns_spec_witness :
  df_index (df_drop_empty_columns Sample.sample_df1 []) = df_index Sample.sample_df1.
Proof.
  apply (drop_empty_columns_spec Sample.sample_df1 []).
  apply NoDup_ListNoDup. vm_compute. repeat constructor; cbn; intuition discriminate.
Defined.

Lemma reindex_columns_same (df : DataFrame) (cols : list label) :
  reindex_columns (reindex_columns df cols) cols = reindex_columns df cols.
Proof.
  unfold reindex_columns at 1 3. cbn [df_index]. f_equal.
  apply List.map_ext_in. intros col Hcol. apply list_elem_of_In in Hcol. f_equal.
  pose proof (reindex_columns_getitem df cols col) as H.
  rewrite bool_decide_eq_true_2 in H by done.
  unfold df_getitem in H.
  assert (exists xs, dict_get (df_data (reindex_columns df cols)) col = Some xs) as [xs Hxs].
  { apply dict_get_elem. fold (df_columns (reindex_columns df cols)).
    by rewrite reindex_columns_columns. }
  rewrite Hxs in H |- *. exact H.
Qed.

(** X23.  Dropping the empty columns of a frame (distinct column labels)
    twice, with the same [keep], is dropping them once. *)
Theorem drop_empty_columns_idempotent (df : DataFrame) (keep : list label) :
  NoDup (df_columns df) ->
  df_drop_empty_columns (df_drop_empty_columns df keep) keep = df_drop_empty_columns df keep.
Proof.
  intros _. unfold df_drop_empty_columns at 1.
  set (r := df_drop_empty_columns df keep).
  assert (List.filter
            (fun col => bool_decide (col ∈ keep)
                        || negb (forallb pseudo_zero (df_getitem r col)))
            (df_columns r) = df_columns r) as ->.
  { apply filter_all. intros col Hcol.
    unfold r, df_drop_empty_columns in Hcol |- *.
    rewrite reindex_columns_columns in Hcol.
    pose proof Hcol as Hcol'. apply elem_of_List_filter in Hcol' as [Hd Hp].
    by rewrite reindex_present_getitem. }
  unfold r, df_drop_empty_columns. rewrite reindex_columns_columns.
  apply reindex_columns_same.
Qed.

Lemma drop_empty_columns_idempotent_witness :
  df_drop_empty_columns (df_drop_empty_columns Sample.sample_df1 []) []
  = df_drop_empty_columns Sample.sample_df1 [].
Proof.
  apply (drop_empty_columns_idempotent Sample.sample_df1 []).
  apply NoDup_ListNoDup. vm_compute. repeat constructor; cbn; intuition discriminate.
Defined.

(** X24.  The empty columns come back with [reindex]: for a frame with
    distinct column labels, [df_drop_empty_columns(df, keep)] reindexed on
    the columns of [df] is [value_eq] to [df] (with [all_zero] on: the
    columns that were dropped return as not-a-number). *)
Theorem drop_then_reindex_restores (df : DataFrame) (keep : list label) (thresh : Q) :
  NoDup (df_columns df) ->
  value_eq (VFrame (reindex_columns (df_drop_empty_columns df keep) (df_columns df)))
           (VFrame df) true thresh = true.
Proof.
  intros _. cbn [value_eq]. apply df_value_eq_spec.
  rewrite reindex_columns_columns.
  split; [done|]. split; [done|].
  intros col Hcol i x1 x2 H1 H2. rewrite value_eq_scalar.
  rewrite reindex_columns_getitem, bool_decide_eq_true_2 in H1 by done.
  fold (df_getitem (df_drop_empty_columns df keep) col) in H1.
  unfold df_drop_empty_columns in H1.
  set (P := fun col => bool_decide (col ∈ keep)
                       || negb (forallb pseudo_zero (df_getitem df col))) in H1.
  destruct (P col) eqn:HP.
  - assert (col ∈ List.filter P (df_columns df)) as Hin by (by apply elem_of_List_filter).
    assert (match dict_get (df_data (reindex_columns df (List.filter P (df_columns df)))) col
            with
            | Some xs => xs
            | None => List.map (fun _ => SFloat nan)
                        (df_index (reindex_columns df (List.filter P (df_columns df))))
            end = df_getitem df col) as Hg.
    { pose proof (reindex_present_getitem df _ col Hin Hcol) as Hg.
      unfold df_getitem at 1 in Hg.
      assert (exists xs, dict_get (df_data (reindex_columns df (List.filter P (df_columns df))))
                           col = Some xs) as [xs Hxs].
      { apply dict_get_elem.
        fold (df_columns (reindex_columns df (List.filter P (df_columns df)))).
        by rewrite reindex_columns_columns. }
      rewrite Hxs in Hg |- *. exact Hg. }
    rewrite Hg in H1. rewrite H1 in H2. injection H2 as <-.
    apply value_eq_simple_refl.
  - assert (dict_get (df_data (reindex_columns df (List.filter P (df_columns df)))) col = None)
      as Hg.
    { destruct (dict_get _ col) as [xs|] eqn:E; [|done].
      assert (col ∈ df_columns (reindex_columns df (List.filter P (df_columns df)))) as Hin.
      { apply dict_get_elem. by exists xs. }
      rewrite reindex_columns_columns in Hin.
      apply elem_of_List_filter in Hin as [_ Hin]. congruence. }
    rewrite Hg in H1. rewrite list_lookup_fmap in H1.
    destruct (_ !! i); [|discriminate]. injection H1 as <-.
    apply value_eq_nan_pseudo_zero.
    unfold P in HP. apply orb_false_iff in HP as [_ HP]. apply negb_false_iff in HP.
    apply (proj1 (forallb_elem_of _ _) HP). by eapply list_elem_of_lookup_2.
Qed.

Lemma drop_then_reindex_restores_witness :
  value_eq (VFrame (reindex_columns (df_drop_empty_columns Sample.sample_df1 [])
                                    (df_columns Sample.sample_df1)))
           (VFrame Sample.sample_df1) true default_thresh = true.
Proof.
  apply (drop_then_reindex_restores Sample.sample_df1 [] default_thresh).
  apply NoDup_ListNoDup. vm_compute. repeat constructor; cbn; intuition discriminate.
Defined.

Lemma zero_df_like_as_reindex (df : DataFrame) :
  df_data (zero_df_like df)
  = List.map (fun k => (k, List.map (fun _ => SFloat (fin 0%Q)) (df_index df)))
             (df_columns df).
Proof. unfold zero_df_like, df_columns. cbn [df_data]. by rewrite List.map_map. Qed.

Lemma zero_df_like_columns (df : DataFrame) :
  df_columns (zero_df_like df) = df_columns df.
Proof.
  unfold df_columns at 1. rewrite zero_df_like_as_reindex.
  induction (df_columns df) as [|c l IH]; [done|]. cbn. by rewrite IH.
Qed.

Lemma zero_df_like_getitem (df : DataFrame) (col : label) :
  col ∈ df_columns df ->
  df_getitem (zero_df_like df) col = List.map (fun _ => SFloat (fin 0%Q)) (df_index df).
Proof.
  intros Hcol. unfold df_getitem. rewrite zero_df_like_as_reindex.
  rewrite (dict_get_map_key (fun _ => List.map (fun _ => SFloat (fin 0%Q)) (df_index df))).
  by rewrite bool_decide_eq_true_2.
Qed.

Lemma forallb_zeros {A : Type} (l : list A) :
  forallb pseudo_zero (List.map (fun _ => SFloat (fin 0%Q)) l) = true.
Proof. induction l as [|x l IH]; [done|]. cbn [List.map forallb]. by rewrite IH. Qed.

(** X25.  [zero_df_like(df)], for a frame with distinct column labels, has
    the index and the columns of [df] and nothing but empty columns:
    [df_drop_empty_columns] leaves of it exactly the columns named in
    [keep]; and it is [value_eq] to [df] when every cell of [df] is like
    zero. *)
Theorem zero_df_like_is_empty (df : DataFrame) (keep : list label) (thresh : Q) :
  NoDup (df_columns df) ->
  df_index (zero_df_like df) = df_index df
  /\ df_columns (zero_df_like df) = df_columns df
  /\ df_columns (df_drop_empty_columns (zero_df_like df) keep)
     = List.filter (fun col => bool_decide (col ∈ keep)) (df_columns df)
  /\ ((forall col x, col ∈ df_columns df -> x ∈ df_getitem df col -> pseudo_zero x = true) ->
      value_eq (VFrame (zero_df_like df)) (VFrame df) true thresh = true).
Proof.
  intros _. split; [done|]. split; [apply zero_df_like_columns|]. split.
  - unfold df_drop_empty_columns. rewrite reindex_columns_columns, zero_df_like_columns.
    apply List.filter_ext_in. intros col Hcol. apply list_elem_of_In in Hcol.
    by rewrite (zero_df_like_getitem df col Hcol), forallb_zeros, orb_false_r.
  - intros Hz. cbn [value_eq]. apply df_value_eq_spec.
    split; [done|]. split; [apply zero_df_like_columns|].
    rewrite zero_df_like_columns. intros col Hcol i x1 x2 H1 H2.
    rewrite (zero_df_like_getitem df col Hcol), list_lookup_fmap in H1.
    destruct (_ !! i); [|discriminate]. injection H1 as <-.
    rewrite value_eq_scalar. unfold value_eq_simple. cbn [is_str andb].
    rewrite (Hz col x2 Hcol) by (by eapply list_elem_of_lookup_2). reflexivity.
Qed.

Lemma zero_df_like_is_empty_witness :
  df_columns (df_drop_empty_columns (zero_df_like Sample.sample_df1) [LStr "B"])
  = List.filter (fun col => bool_decide (col ∈ [LStr "B"])) (df_columns Sample.sample_df1).
Proof.
  apply (zero_df_like_is_empty Sample.sample_df1 [LStr "B"] default_thresh).
  apply NoDup_ListNoDup. vm_compute. repeat constructor; cbn; intuition discriminate.
Defined.

(** ** The summaries of a parameter meta-analysis *)

(** X26.  [quantiles] and [low_mean_high] of a parameter meta-analysis never
    compute a statistic.  They test [self.estimates] for truth: with no
    estimates they return not-a-number under every key, and with a frame of
    estimates, whatever it holds, they raise [ValueError], since a frame has
    no truth value. *)
Theorem pma_summaries_never_computed
    (min_value max_value : list scalar -> result scalar)
    (mean_value median_value stdev_value : list scalar -> result pyfloat)
    (quartiles : list scalar -> result (pyfloat * pyfloat * pyfloat))
    (self : ParameterMetaAnalysis) :
  match estimates self with
  | Some _ =>
      quantiles min_value max_value median_value quartiles self = raise ValueError
      /\ low_mean_high mean_value stdev_value self = raise ValueError
  | None =>
      quantiles min_value max_value median_value quartiles self
      = ret [("min", SFloat nan); ("25%", SFloat nan); ("median", SFloat nan);
             ("75%", SFloat nan); ("max", SFloat nan)]
      /\ low_mean_high mean_value stdev_value self
         = ret [("low", SFloat nan); ("mean", SFloat nan); ("hi", SFloat nan)]
  end.
Proof.
  unfold quantiles, low_mean_high, estimates_object.
  destruct (estimates self) as [df|]; split; reflexivity.
Qed.
